(** * Verification of data_pipeline.py (ProductionDataPipeline)

    Shallow embedding of the acquisition pipeline: the retrying yfinance
    fetcher, the FRED client, the risk-free-rate fallback chain, the data
    quality gate, the batch fetcher and the health check.

    Modelling conventions:
    - a Python/numpy float is [pyfloat]: an exact rational, +inf, -inf or NaN
      (rounding and signed zeros are not modelled);
    - a pandas DataFrame is a [table]: its column names and its rows, each
      row keyed by its timestamp (a day number) and holding one cell per
      column; a missing cell is NaN;
    - the network (yf.download, the FRED HTTP call) is an oracle [world]
      which may answer differently depending on the calls already made;
      [datetime.now()] is the world's clock;
    - prints are dropped, except the few diagnostics the claims refer to,
      which are appended to an output log. *)

From Stdlib Require Import QArith Qabs Lia.
From stdpp Require Import base gmap strings list pretty.


(** ** Python floats *)

Definition Qlt_bool (a b : Q) : bool := negb (Qle_bool b a).

Inductive pyfloat :=
| Num (q : Q)
| PInf
| NInf
| NaN.

Definition is_nan (x : pyfloat) : bool :=
  match x with NaN => true | _ => false end.

(** [x > 0] *)
Definition gt0 (x : pyfloat) : bool :=
  match x with Num q => Qlt_bool 0 q | PInf => true | _ => false end.

(** [x <= 0] *)
Definition le0 (x : pyfloat) : bool :=
  match x with Num q => Qle_bool q 0 | NInf => true | _ => false end.

(** [abs(x) > 0.5] *)
Definition abs_gt_half (x : pyfloat) : bool :=
  match x with Num q => Qlt_bool (1#2) (Qabs q) | PInf | NInf => true | NaN => false end.

Definition neg_inf (x : pyfloat) : pyfloat :=
  match x with PInf => NInf | NInf => PInf | y => y end.

(** [x / y] (a zero divisor is +0.0) *)
Definition fdiv (x y : pyfloat) : pyfloat :=
  match x, y with
  | NaN, _ | _, NaN => NaN
  | Num a, Num b =>
      if Qeq_bool b 0 then
        (if Qeq_bool a 0 then NaN else if Qlt_bool 0 a then PInf else NInf)
      else Num (a / b)
  | Num _, (PInf | NInf) => Num 0
  | (PInf | NInf), Num b => if Qlt_bool b 0 then neg_inf x else x
  | (PInf | NInf), (PInf | NInf) => NaN
  end.

(** [x - 1] *)
Definition fsub1 (x : pyfloat) : pyfloat :=
  match x with Num a => Num (a - 1) | y => y end.

(** ** Tables *)

Record table := mk_table {
  t_cols : list string;
  t_rows : list (Z * list pyfloat)
}.

(** [len(df)] *)
Definition tlen (t : table) : nat := length (t_rows t).

(** [df.empty]: no rows or no columns *)
Definition tempty (t : table) : bool :=
  match t_rows t, t_cols t with [], _ | _, [] => true | _, _ => false end.

(** [df.dropna()]: drop the rows holding a missing cell *)
Definition dropna (t : table) : table :=
  mk_table (t_cols t) (filter (fun r => negb (existsb is_nan r.2)) (t_rows t)).

(** [df.isnull().sum().sum()] *)
Definition null_count (t : table) : nat :=
  sum_list_with (fun r => length (filter is_nan r.2)) (t_rows t).

Fixpoint col_pos (c : string) (cs : list string) : option nat :=
  match cs with
  | [] => None
  | c' :: cs' => if String.eqb c c' then Some 0 else S <$> col_pos c cs'
  end.

(** [df[c]] as a list of cells; [None] is a KeyError *)
Definition column (t : table) (c : string) : option (list pyfloat) :=
  (fun i => map (fun r => default NaN (r.2 !! i)) (t_rows t)) <$> col_pos c (t_cols t).

(** [series.dropna()] *)
Definition sdropna (s : list pyfloat) : list pyfloat := filter (fun x => negb (is_nan x)) s.

(** [series.pct_change()]: NaN first, then [s[i]/s[i-1] - 1] *)
Definition pct_change (s : list pyfloat) : list pyfloat :=
  match s with
  | [] => []
  | x :: rest => NaN :: zip_with (fun prev cur => fsub1 (fdiv cur prev)) s rest
  end.

(** [df.index[-1]] *)
Definition last_index (t : table) : option Z := fst <$> last (t_rows t).

(** ** The quality gate: [_validate_data_quality] *)

(** The diagnostics the gate prints. *)
Inductive gate_msg :=
| GNoData (ticker : string)
| GInsufficient (ticker : string) (n : nat)
| GTooManyMissing (ticker : string) (missing_pct : Q)
| GNoValidCloses (ticker : string)
| GInvalidPrices (ticker : string)
| GSuspicious (ticker : string)
| GStale (ticker : string) (days_old : Z)
| GValidated (ticker : string).

Definition Qnat (n : nat) : Q := inject_Z (Z.of_nat n).

(** The [if 'Close' in data.columns:] block: [Some m] is a rejection with
    message [m], [None] lets validation go on. *)
Definition close_checks (data : table) (ticker : string) : option gate_msg :=
  match column data "Close" with
  | None => None
  | Some close =>
      let closes := sdropna close in
      if length closes =? 0 then Some (GNoValidCloses ticker)
      else if existsb le0 closes then Some (GInvalidPrices ticker)
      else
        let returns := sdropna (pct_change closes) in
        let extreme_moves := length (filter abs_gt_half returns) in
        if Qlt_bool (Qnat (length returns) * (2#100)) (Qnat extreme_moves)
        then Some (GSuspicious ticker)
        else None
  end.

(** [missing_pct = data.isnull().sum().sum() / (len(data) * len(data.columns))] *)
Definition missing_pct (data : table) : Q :=
  Qnat (null_count data) / Qnat (tlen data * length (t_cols data)).

(** The gate, at time [now] (a day number): the verdict and the printed
    diagnostics.  [data = None] is Python's [None]. *)
Definition _validate_data_quality (now : Z) (data : option table) (ticker : string)
    : bool * list gate_msg :=
  match data with
  | None => (false, [GNoData ticker])
  | Some data =>
      if tempty data then (false, [GNoData ticker])
      else if tlen data <? 20 then (false, [GInsufficient ticker (tlen data)])
      else if Qlt_bool (1#10) (missing_pct data)
      then (false, [GTooManyMissing ticker (missing_pct data)])
      else match close_checks data ticker with
           | Some m => (false, [m])
           | None =>
               let latest_date := default 0%Z (last_index data) in
               let days_old := (now - latest_date)%Z in
               (true, (if Z.gtb days_old 10 then [GStale ticker days_old] else [])
                        ++ [GValidated ticker])
           end
  end.

(** ** Exceptions, the outside world and the pipeline monad *)

Inductive exc_class :=
| ValueError
| KeyError
| IndexError
| PyException
| ExternalError (name : string).

(** A raised exception; [str(e)] is its message. *)
Record exn := mk_exn { exc_cls : exc_class; exc_msg : string }.

(** Arguments of [yf.download]: a date range or a period string. *)
Inductive window :=
| Range (start_date end_date : Z)
| Period (p : string).

(** One network call. *)
Inductive request :=
| Download (sym : string) (win : window)
| FredGet (series_id : string) (limit : nat).

(** An observation [obs['value']] of the FRED answer, as [float()] sees it:
    the sentinel ['.'], a string [float()] parses to [x], or a string (or
    a missing key) on which it raises. *)
Inductive fred_value :=
| FVDot
| FVNum (x : pyfloat)
| FVBad (e : exn).

Inductive dl_result :=
| DLRaise (e : exn)
| DLOk (t : table).

(** [requests.get] + [raise_for_status] + [.json().get('observations', [])] *)
Inductive fred_result :=
| FredRaise (e : exn)
| FredOk (observations : list fred_value).

(** The outside world: each answer may depend on the calls made before. *)
Record world := mk_world {
  w_dl : list request -> string -> window -> dl_result;
  w_fred : list request -> string -> nat -> fred_result;
  w_now : Z
}.

(** The diagnostics kept from the prints. *)
Inductive msg :=
| MGate (m : gate_msg)
| MFailedTickers (failed : list string).

Record st := mk_st { s_calls : list request; s_log : list msg }.

Inductive res (A : Type) :=
| Ok (a : A)
| Err (e : exn).
Arguments Ok {A} a.
Arguments Err {A} e.

(** Reader of the world, state of calls and log, Python exceptions. *)
Definition M (A : Type) : Type := world -> st -> res A * st.

Global Instance M_ret : MRet M := fun A a w s => (Ok a, s).
Global Instance M_bind : MBind M := fun A B k m w s =>
  match m w s with
  | (Ok a, s') => k a w s'
  | (Err e, s') => (Err e, s')
  end.

Definition raise {A} (e : exn) : M A := fun w s => (Err e, s).

(** [try: m except Exception as e: h e] *)
Definition catch {A} (m : M A) (h : exn -> M A) : M A := fun w s =>
  match m w s with
  | (Ok a, s') => (Ok a, s')
  | (Err e, s') => h e w s'
  end.

Definition get_now : M Z := fun w s => (Ok (w_now w), s).

Definition say (m : msg) : M unit := fun w s => (Ok tt, mk_st (s_calls s) (s_log s ++ [m])).

Definition record_call (r : request) (s : st) : st := mk_st (s_calls s ++ [r]) (s_log s).

(** [yf.download(sym, ...)] *)
Definition download (sym : string) (win : window) : M table := fun w s =>
  match w_dl w (s_calls s) sym win with
  | DLRaise e => (Err e, record_call (Download sym win) s)
  | DLOk t => (Ok t, record_call (Download sym win) s)
  end.

(** The FRED HTTP request. *)
Definition fred_get (series_id : string) (limit : nat) : M (list fred_value) := fun w s =>
  match w_fred w (s_calls s) series_id limit with
  | FredRaise e => (Err e, record_call (FredGet series_id limit) s)
  | FredOk obs => (Ok obs, record_call (FredGet series_id limit) s)
  end.

Definition run {A} (m : M A) (w : world) : res A * st := m w (mk_st [] []).

Definition value_error (m : string) : exn := mk_exn ValueError m.

(** ** The pipeline object *)

Record pipeline := mk_pipeline {
  fred_api_key : option string;
  alpha_vantage_key : option string
}.

(** Python truthiness of an optional string. *)
Definition truthy (k : option string) : bool :=
  match k with Some s => negb (String.eqb s "") | None => false end.

(** [period_days.get(period, 365)] *)
Definition period_days (period : string) : Z :=
  match period with
  | "1mo" => 30 | "3mo" => 90 | "6mo" => 180
  | "1y" => 365 | "2y" => 730 | "5y" => 1825
  | _ => 365
  end%string%Z.

(** One pass of the body of the retry loop of [_fetch_from_yfinance]
    (the freshness check only prints). *)
Definition yf_attempt (ticker : string) (start_date end_date : Z) : M table :=
  stock_data ← download ticker (Range start_date end_date);
  if tempty stock_data then raise (value_error ("No data returned for " ++ ticker)%string)
  else
    let stock_data := dropna stock_data in
    if tlen stock_data <? 20
    then raise (value_error ("Insufficient data points for " ++ ticker ++ ": "
                               ++ pretty (tlen stock_data))%string)
    else mret stock_data.

(** [for attempt in range(max_retries): try: body except e: if attempt <
    max_retries - 1: continue else: raise e]; [remaining] is
    [max_retries - 1 - attempt], so [attempt < max_retries - 1] is
    [remaining > 0]. The range is never empty, so the loop never falls
    through. *)
Fixpoint retry_loop (body : M table) (remaining : nat) : M table :=
  catch body (fun e =>
    match remaining with
    | O => raise e
    | S r => retry_loop body r
    end).

Definition max_retries : nat := 3.

Definition _fetch_from_yfinance (ticker period : string) : M table :=
  end_date ← get_now;
  let start_date := (end_date - period_days period)%Z in
  retry_loop (yf_attempt ticker start_date end_date) (max_retries - 1).

(** The loop [for obs in observations: if obs['value'] != '.': return float(obs['value'])]. *)
Fixpoint first_valid (observations : list fred_value) : M (option pyfloat) :=
  match observations with
  | [] => mret None
  | FVDot :: rest => first_valid rest
  | FVNum x :: _ => mret (Some x)
  | FVBad e :: _ => raise e
  end.

Definition _fetch_from_fred (self : pipeline) (series_id : string) (limit : nat)
    : M (option pyfloat) :=
  if negb (truthy (fred_api_key self)) then raise (value_error "FRED API key required")
  else
    observations ← fred_get series_id limit;
    first_valid observations.

(** [series.iloc[-1]] *)
Definition iloc_last (s : list pyfloat) : M pyfloat :=
  match last s with
  | Some x => mret x
  | None => raise (mk_exn IndexError "single positional indexer is out-of-bounds")
  end.

(** [df['Close']] *)
Definition get_close (t : table) : M (list pyfloat) :=
  match column t "Close" with
  | Some c => mret c
  | None => raise (mk_exn KeyError "'Close'")
  end.

Definition hundred : pyfloat := Num (inject_Z 100).

Definition rfr_exhausted : exn :=
  mk_exn PyException "❌ CRITICAL: Unable to fetch real-time risk-free rate from any source".

(** [get_real_time_risk_free_rate]; a block that returns gives [Some]. *)
Definition get_real_time_risk_free_rate (self : pipeline) : M pyfloat :=
  (* Method 1: FRED 3-Month Treasury *)
  r1 ← catch (if truthy (fred_api_key self) then
                fred_rate ← _fetch_from_fred self "DGS3MO" 10;
                match fred_rate with
                | Some x => mret (Some (fdiv x hundred))
                | None => mret None
                end
              else mret None)
             (fun e => mret None);
  match r1 with Some v => mret v | None =>
  (* Method 2: Yahoo Finance ^IRX *)
  r2 ← catch (irx_data ← download "^IRX" (Period "5d");
              if negb (tempty irx_data) then
                close ← get_close irx_data;
                latest_rate ← iloc_last close;
                if negb (is_nan latest_rate) && gt0 latest_rate
                then mret (Some (fdiv latest_rate hundred))
                else mret None
              else mret None)
             (fun e => mret None);
  match r2 with Some v => mret v | None =>
  (* Method 3: FRED 1-Month Treasury *)
  r3 ← catch (if truthy (fred_api_key self) then
                fred_rate ← _fetch_from_fred self "DGS1MO" 10;
                match fred_rate with
                | Some x => mret (Some (fdiv x hundred))
                | None => mret None
                end
              else mret None)
             (fun e => mret None);
  match r3 with Some v => mret v | None =>
  raise rfr_exhausted
  end end end.

(** [get_real_time_market_data]: the returns of ^GSPC, else of VTI. *)
Definition get_real_time_market_data (period : string) : M (list pyfloat) :=
  catch (market_data ← _fetch_from_yfinance "^GSPC" period;
         if tlen market_data <? 50
         then raise (value_error ("Insufficient market data: " ++ pretty (tlen market_data)
                                    ++ " observations")%string)
         else
           close ← get_close market_data;
           mret (sdropna (pct_change close)))
        (fun e =>
           catch (vti_data ← _fetch_from_yfinance "VTI" period;
                  close ← get_close vti_data;
                  mret (sdropna (pct_change close)))
                 (fun backup_error =>
                    raise (mk_exn PyException
                             ("❌ CRITICAL: All market data sources failed. Primary: "
                              ++ exc_msg e ++ ", Backup: " ++ exc_msg backup_error)%string))).

(** ** Batch fetch: [fetch_real_time_stock_data] *)

(** A [str] or a list of tickers. *)
Inductive tickers_arg :=
| TStr (s : string)
| TList (l : list string).

Fixpoint say_all (ms : list msg) : M unit :=
  match ms with
  | [] => mret tt
  | m :: ms' => _ ← say m; say_all ms'
  end.

(** [validate and not self._validate_data_quality(data, ticker)], with the
    gate's diagnostics. *)
Definition rejected_by_gate (validate : bool) (data : table) (ticker : string) : M bool :=
  if validate then
    now ← get_now;
    let '(ok, msgs) := _validate_data_quality now (Some data) ticker in
    _ ← say_all (MGate <$> msgs);
    mret (negb ok)
  else mret false.

(** One iteration of [for ticker in tickers:], on [(all_data, failed_tickers)]. *)
Definition fetch_one (period : string) (validate : bool) (ticker : string)
    (acc : gmap string table * list string) : M (gmap string table * list string) :=
  let '(all_data, failed_tickers) := acc in
  catch (data ← _fetch_from_yfinance ticker period;
         rejected ← rejected_by_gate validate data ticker;
         if (rejected : bool)
         then raise (value_error ("Data quality validation failed for " ++ ticker)%string)
         else mret (<[ticker := data]> all_data, failed_tickers))
        (fun e => mret (all_data, failed_tickers ++ [ticker])).

Fixpoint fetch_loop (period : string) (validate : bool) (tickers : list string)
    (acc : gmap string table * list string) : M (gmap string table * list string) :=
  match tickers with
  | [] => mret acc
  | ticker :: rest => acc' ← fetch_one period validate ticker acc; fetch_loop period validate rest acc'
  end.

Definition no_data_error : exn :=
  mk_exn PyException "❌ CRITICAL: No data could be fetched for any ticker".

Definition fetch_real_time_stock_data (tickers : tickers_arg) (period : string) (validate : bool)
    : M (gmap string table) :=
  let tickers := match tickers with TStr s => [s] | TList l => l end in
  '(all_data, failed_tickers) ← fetch_loop period validate tickers (∅, []);
  if Nat.eqb (size all_data) 0 then raise no_data_error
  else
    _ ← (match failed_tickers with
         | [] => mret tt
         | _ => say (MFailedTickers failed_tickers)
         end);
    mret all_data.

(** ** Health check: [system_health_check] *)

(** [needle in hay] on strings *)
Fixpoint str_contains (needle hay : string) : bool :=
  String.prefix needle hay ||
  match hay with
  | EmptyString => false
  | String _ hay' => str_contains needle hay'
  end.

Definition error_status (e : exn) : string := ("ERROR: " ++ exc_msg e ++ " ❌")%string.

Inductive rate_report := RateOk (rf_rate : pyfloat) | RateErr (e : exn).
Inductive market_report := MarketOk (n_returns : nat) | MarketErr (e : exn).
Inductive sample_report :=
| SampleOk (quality : list (string * string))
| SampleErr (e : exn).

(** The report; the timestamp is left out and the formatted rate, market
    and sample entries are kept as data rather than as text. *)
Record health_report := mk_report {
  data_sources : list (string * string);
  sample_data_quality : sample_report;
  risk_free_rate : rate_report;
  market_data : market_report;
  overall_status : string
}.

Definition sample_tickers : list string := ["AAPL"; "MSFT"; "GOOGL"].

Definition overall_of (sources : list (string * string)) : string :=
  let healthy_sources := length (List.filter (fun kv => str_contains "HEALTHY" kv.2) sources) in
  let total_sources := length sources in
  if Nat.eqb healthy_sources total_sources then "HEALTHY ✅"
  else if Nat.ltb 0 healthy_sources then "DEGRADED ⚠️"
  else "CRITICAL ❌".

Definition system_health_check (self : pipeline) : M health_report :=
  yf_status ← catch (test_data ← download "AAPL" (Period "5d");
                     mret (if negb (tempty test_data) then "HEALTHY ✅" else "NO DATA ❌"))
                    (fun e => mret (error_status e));
  fred_status ← (if truthy (fred_api_key self) then
                   catch (fred_test ← _fetch_from_fred self "DGS3MO" 1;
                          mret (match fred_test with
                                | Some _ => "HEALTHY ✅"
                                | None => "NO DATA ❌"
                                end))
                         (fun e => mret (error_status e))
                 else mret "NO API KEY ⚠️");
  rf ← catch (rf_rate ← get_real_time_risk_free_rate self; mret (RateOk rf_rate))
             (fun e => mret (RateErr e));
  mk ← catch (market_returns ← get_real_time_market_data "1mo";
              mret (MarketOk (length market_returns)))
             (fun e => mret (MarketErr e));
  sample ← catch (sample_data ← fetch_real_time_stock_data (TList sample_tickers) "1mo" true;
                  mret (SampleOk
                          (map (fun ticker =>
                                  (ticker, match sample_data !! ticker with
                                           | Some d => if Nat.ltb 15 (tlen d) then "HEALTHY ✅"
                                                       else "LIMITED DATA ⚠️"
                                           | None => "FAILED ❌"
                                           end%string))
                               sample_tickers)))
                 (fun e => mret (SampleErr e));
  let sources := [("yfinance", yf_status); ("fred", fred_status)]%string in
  mret (mk_report sources sample rf mk (overall_of sources)).

(** ** The spec's rate fallback chain *)

(** The spec's "usable" value for a rate: non-null (a [Some]), not NaN,
    and strictly positive. *)
Definition usable (v : pyfloat) : bool := negb (is_nan v) && gt0 v.

(** The spec's FallbackOrchestrator for a rate: strategies tried strictly
    in order; a strategy that raises, yields nothing or yields a value that
    is not usable is passed over; the first usable value wins at once and
    is scaled from percentage points to a fraction; [exhausted] is raised
    once the chain is used up. *)
Fixpoint resolve_usable (chain : list (M (option pyfloat))) (exhausted : exn) : M pyfloat :=
  match chain with
  | [] => raise exhausted
  | strategy :: rest =>
      r ← catch strategy (fun _ => mret None);
      match r with
      | Some v => if usable v then mret (fdiv v hundred) else resolve_usable rest exhausted
      | None => resolve_usable rest exhausted
      end
  end.

(** The spec's authoritative strategy for a series: the observation FRED
    gives for it, as [_fetch_from_fred] retrieves it (which fails for lack
    of a credential, before any request). *)
Definition fred_strategy (self : pipeline) (series_id : string) : M (option pyfloat) :=
  _fetch_from_fred self series_id 10.

(** The spec's benchmark-quote strategy: the latest ^IRX close over 5
    days, nothing when the download is empty. *)
Definition irx_strategy : M (option pyfloat) :=
  irx_data ← download "^IRX" (Period "5d");
  if negb (tempty irx_data) then
    close ← get_close irx_data;
    latest_rate ← iloc_last close;
    mret (Some latest_rate)
  else mret None.

(** The spec's chain for the risk-free rate: authoritative 3-month,
    benchmark quote, authoritative 1-month. *)
Definition rate_strategies (self : pipeline) : list (M (option pyfloat)) :=
  [fred_strategy self "DGS3MO"; irx_strategy; fred_strategy self "DGS1MO"].

(** ** Per-identifier outcomes of a batch *)

(** A world whose answers do not depend on the calls made before. *)
Definition static_world (dl : string -> window -> dl_result)
    (fred : string -> nat -> fred_result) (now : Z) : world :=
  mk_world (fun _ => dl) (fun _ => fred) now.

(** The outcome of one identifier fetched on its own: its (cleaned) table
    when the fetch succeeds and, with [validate], the gate accepts it. *)
Definition isolated_outcome (w : world) (period : string) (validate : bool) (ticker : string)
    : option table :=
  match fst (run (_fetch_from_yfinance ticker period) w) with
  | Ok data =>
      if validate && negb (fst (_validate_data_quality (w_now w) (Some data) ticker))
      then None else Some data
  | Err _ => None
  end.

(** Recording one identifier's outcome in (accepted mapping, failed list). *)
Definition batch_step (outcome : string -> option table)
    (acc : gmap string table * list string) (ticker : string) : gmap string table * list string :=
  let '(accepted, failed) := acc in
  match outcome ticker with
  | Some data => (<[ticker := data]> accepted, failed)
  | None => (accepted, failed ++ [ticker])
  end.

(** ** Portfolio returns: [calculate_portfolio_returns] *)

(** [x + y] *)
Definition fadd (x y : pyfloat) : pyfloat :=
  match x, y with
  | NaN, _ | _, NaN => NaN
  | Num a, Num b => Num (a + b)
  | PInf, NInf | NInf, PInf => NaN
  | PInf, _ | _, PInf => PInf
  | NInf, _ | _, NInf => NInf
  end.

(** [x * y] *)
Definition fmul (x y : pyfloat) : pyfloat :=
  match x, y with
  | NaN, _ | _, NaN => NaN
  | Num a, Num b => Num (a * b)
  | Num a, ((PInf | NInf) as i) | ((PInf | NInf) as i), Num a =>
      if Qeq_bool a 0 then NaN else if Qlt_bool 0 a then i else neg_inf i
  | PInf, PInf | NInf, NInf => PInf
  | PInf, NInf | NInf, PInf => NInf
  end.

(** [abs(x)] *)
Definition fabs (x : pyfloat) : pyfloat :=
  match x with Num a => Num (Qabs a) | NInf => PInf | y => y end.

(** [x > c] for a constant [c] *)
Definition fgt (x : pyfloat) (c : Q) : bool :=
  match x with Num a => Qlt_bool c a | PInf => true | _ => false end.

(** [sum(xs)]: Python's builtin, from the int [0] *)
Definition fsum (xs : list pyfloat) : pyfloat := fold_left fadd xs (Num 0).

(** The cells of column [i], with their row labels. *)
Definition series_at (t : table) (i : nat) : list (Z * pyfloat) :=
  map (fun r => (r.1, default NaN (r.2 !! i))) (t_rows t).

(** [price_data[ticker]['Close']] when the table has a Close column, else
    [price_data[ticker].iloc[:, 0]]; [None] is the IndexError of a table
    without columns. *)
Definition price_column (t : table) : option (list (Z * pyfloat)) :=
  match col_pos "Close" (t_cols t) with
  | Some i => Some (series_at t i)
  | None => match t_cols t with [] => None | _ :: _ => Some (series_at t 0) end
  end.

(** A DataFrame filled column by column: its row labels and its named columns. *)
Record frame := mk_frame {
  f_index : list Z;
  f_cols : list (string * list pyfloat)
}.

(** The value of a series at label [d], NaN when the label is absent. *)
Definition lookup_date (s : list (Z * pyfloat)) (d : Z) : pyfloat :=
  match List.find (fun p => Z.eqb p.1 d) s with Some p => p.2 | None => NaN end.

(** Replace column [name], or append it. *)
Definition set_column (cols : list (string * list pyfloat)) (name : string) (v : list pyfloat)
    : list (string * list pyfloat) :=
  if existsb (fun c => String.eqb c.1 name) cols
  then map (fun c => if String.eqb c.1 name then (name, v) else c) cols
  else cols ++ [(name, v)].

(** [df[name] = s] for a Series [s]: pandas' [_ensure_valid_index] (a frame
    without rows takes the labels of a non-empty series, its columns filled
    with NaN), then [_reindex_for_setitem] (the values as they are when the
    labels agree or the frame has no rows, else [s.reindex(df.index)],
    which raises on a series with repeated labels). *)
Definition frame_setitem (f : frame) (name : string) (s : list (Z * pyfloat)) : M frame :=
  let f := match f_index f, s with
           | [], _ :: _ => mk_frame (map fst s) (map (fun c => (c.1, map (fun _ => NaN) s)) (f_cols f))
           | _, _ => f
           end in
  let index := f_index f in
  if bool_decide (map fst s = index) || Nat.eqb (length index) 0
  then mret (mk_frame index (set_column (f_cols f) name (map snd s)))
  else if bool_decide (NoDup (map fst s))
  then mret (mk_frame index (set_column (f_cols f) name (map (lookup_date s) index)))
  else raise (value_error "cannot reindex on an axis with duplicate labels").

(** The rows of a frame. *)
Definition frame_table (f : frame) : table :=
  mk_table (map fst (f_cols f))
    (imap (fun i d => (d, map (fun c => default NaN (c.2 !! i)) (f_cols f))) (f_index f)).

(** [df.pct_change()], column by column. *)
Definition frame_pct_change (t : table) : table :=
  mk_table (t_cols t)
    (match t_rows t with
     | [] => []
     | r :: rest =>
         (r.1, map (fun _ => NaN) r.2)
         :: zip_with (fun prev cur => (cur.1, zip_with (fun p c => fsub1 (fdiv c p)) prev.2 cur.2))
                     (t_rows t) rest
     end).

(** [(returns * weights).sum(axis=1)]: the weights broadcast along the
    columns, the NaN products skipped by the sum. *)
Definition weighted_sum (returns : table) (weights : list pyfloat) : M (list (Z * pyfloat)) :=
  if negb (Nat.eqb (length (t_cols returns)) (length weights))
  then raise (value_error ("Unable to coerce to Series, length must be "
                             ++ pretty (length (t_cols returns)) ++ ": given "
                             ++ pretty (length weights))%string)
  else mret (map (fun r => (r.1, fsum (sdropna (zip_with fmul r.2 weights)))) (t_rows returns)).

(** The loop [for ticker in tickers:] filling [all_prices]. *)
Fixpoint align_prices (price_data : list (string * table)) (all_prices : frame) : M frame :=
  match price_data with
  | [] => mret all_prices
  | (ticker, t) :: rest =>
      s ← (match price_column t with
           | Some s => mret s
           | None => raise (mk_exn IndexError "single positional indexer is out-of-bounds")
           end);
      all_prices ← frame_setitem all_prices ticker s;
      align_prices rest all_prices
  end.

(** [np.ones(len(tickers)) / len(tickers)] *)
Definition equal_weights (n : nat) : list pyfloat := repeat (fdiv (Num 1) (Num (Qnat n))) n.

(** Lines 278-300: alignment, returns and weighting, once the weights are
    checked. *)
Definition portfolio_of (price_data : list (string * table)) (weights : list pyfloat)
    : M (table * list (Z * pyfloat)) :=
  all_prices ← align_prices price_data (mk_frame [] []);
  let all_prices := dropna (frame_table all_prices) in
  if tlen all_prices <? 20
  then raise (value_error ("Insufficient aligned data: " ++ pretty (tlen all_prices)
                             ++ " observations")%string)
  else
    let returns := dropna (frame_pct_change all_prices) in
    portfolio_returns ← weighted_sum returns weights;
    mret (returns, portfolio_returns).

(** [calculate_portfolio_returns(price_data, weights)]: [price_data] is the
    dict as its (key, table) pairs in insertion order; [weights = None] is
    [None]; [float_repr] is how Python prints a float in the message. *)
Definition calculate_portfolio_returns (float_repr : pyfloat -> string)
    (price_data : list (string * table)) (weights : option (list pyfloat))
    : M (table * list (Z * pyfloat)) :=
  let tickers := map fst price_data in
  let weights := match weights with
                 | None => equal_weights (length tickers)
                 | Some ws => ws
                 end in
  if negb (Nat.eqb (length weights) (length tickers))
  then raise (value_error ("Weights length (" ++ pretty (length weights)
                             ++ ") doesn't match tickers (" ++ pretty (length tickers) ++ ")")%string)
  else if fgt (fabs (fsub1 (fsum weights))) (1#1000000)
  then raise (value_error ("Weights don't sum to 1.0: "
                             ++ match weights with [] => "0" | _ => float_repr (fsum weights) end)%string)
  else portfolio_of price_data weights.

(** ** Module-level entry points *)

(** [production_pipeline = ProductionDataPipeline()]: no FRED key. *)
Definition production_pipeline : pipeline := mk_pipeline None None.

Definition get_real_time_data (tickers : tickers_arg) (period : string) (validate : bool)
    : M (gmap string table) :=
  fetch_real_time_stock_data tickers period validate.

Definition get_risk_free_rate : M pyfloat := get_real_time_risk_free_rate production_pipeline.

Definition get_market_data (period : string) : M (list pyfloat) := get_real_time_market_data period.

Definition run_health_check : M health_report := system_health_check production_pipeline.

(** ** Concrete inputs used by the examples *)

(** A one-column table of closes, one row per day from [start]. *)
Definition close_table (start : Z) (closes : list Q) : table :=
  mk_table ["Close"%string] (imap (fun i q => ((start + Z.of_nat i)%Z, [Num q])) closes).

(** 100 closes at 1, with a close of 2 at each day of [spikes]: each spike
    is one move of +100% followed by one of exactly -50%. *)
Definition spiked_closes (spikes : list nat) : list Q :=
  map (fun i => if bool_decide (i ∈ spikes) then inject_Z 2 else inject_Z 1) (seq 0 100).

(** 20 rows of (Close, Volume) whose first 4 volumes are missing: 4 of 40
    cells, exactly 10%. *)
Definition volume_gap_table : table :=
  mk_table ["Close"; "Volume"]%string
    (map (fun i => (Z.of_nat i, [Num 1; if Nat.ltb i 4 then NaN else Num (inject_Z 1000)]))
         (seq 0 20)).

(** The pipeline without a FRED key, and one with a key. *)
Definition no_key_pipeline : pipeline := mk_pipeline None None.
Definition key_pipeline : pipeline := mk_pipeline (Some "fred-key"%string) None.

Definition timeout_error : exn := mk_exn (ExternalError "ReadTimeout") "Read timed out.".

(** Every download returns [t]; FRED is unreachable. *)
Definition download_world (t : table) : world :=
  mk_world (fun _ _ _ => DLOk t) (fun _ _ _ => FredRaise timeout_error) 0.

(** Yahoo is unreachable; FRED's latest observation is missing ('.') and
    the one before parses to [x]. *)
Definition fred_value_world (x : pyfloat) : world :=
  mk_world (fun _ _ _ => DLRaise timeout_error) (fun _ _ _ => FredOk [FVDot; FVNum x]) 0.

(** Downloads answer, in call order, with [rs] (the last answer repeating). *)
Definition scripted_world (rs : list dl_result) (last_r : dl_result) : world :=
  mk_world (fun h _ _ => nth (length h) rs last_r) (fun _ _ _ => FredRaise timeout_error) 0.

(** AAA and CCC answer 100 clean rows; BBB answers only 5 rows. *)
Definition batch_world : world :=
  static_world
    (fun sym _ => if String.eqb sym "BBB" then DLOk (close_table 0 (repeat (inject_Z 1) 5))
                  else DLOk (close_table 0 (spiked_closes [])))
    (fun _ _ => FredRaise timeout_error) 99.

(** A FRED key is useless here only in its answer: DGS3MO's latest
    observation is missing ('.') and the one before is 0.00; ^IRX closes
    at 4.5. *)
Definition fred_zero_world : world :=
  mk_world (fun _ _ _ => DLOk (close_table 0 [9#2])) (fun _ _ _ => FredOk [FVDot; FVNum (Num 0)]) 0.

(** Every download and every FRED request fails. *)
Definition offline_world : world :=
  mk_world (fun _ _ _ => DLRaise timeout_error) (fun _ _ _ => FredRaise timeout_error) 0.

(** ^GSPC answers 30 closes at 1 (too few for the market data), any other
    symbol 25 closes at 2. *)
Definition short_index_world : world :=
  mk_world (fun _ sym _ => if String.eqb sym "^GSPC" then DLOk (close_table 0 (repeat (inject_Z 1) 30))
                           else DLOk (close_table 0 (repeat (inject_Z 2) 25)))
           (fun _ _ _ => FredRaise timeout_error) 0.

(** What the batch fetch keeps of [batch_world] with validation. *)
Definition batch_accepted : gmap string table :=
  <["AAA" := dropna (close_table 0 (spiked_closes []))]>
    (<["CCC" := dropna (close_table 0 (spiked_closes []))]> ∅).

(** 25 rows of a single, negative, "Open" column. *)
Definition open_only_table : table :=
  mk_table ["Open"%string] (map (fun i => (Z.of_nat i, [Num (-1)])) (seq 0 25)).

(** Two tickers over the same 100 days, the second with one spike, and
    equal explicit weights. *)
Definition two_ticker_prices : list (string * table) :=
  [("AAA", close_table 0 (spiked_closes [])); ("BBB", close_table 0 (spiked_closes [10%nat]))]%string.
Definition half_weights : list pyfloat := [Num (1#2); Num (1#2)].

(** Two tickers whose dates overlap on 10..99 only: BBB's closes start
    ten days after AAA's. *)
Definition shifted_prices : list (string * table) :=
  [("AAA", close_table 0 (spiked_closes [])); ("BBB", close_table 10 (spiked_closes []))]%string.

(** * Properties *)

Lemma Qlt_bool_iff (a b : Q) : Qlt_bool a b = true <-> (a < b)%Q.
Proof.
  unfold Qlt_bool. rewrite negb_true_iff. split.
  - intros H. apply Qnot_le_lt. intros H'. apply Qle_bool_iff in H'. congruence.
  - intros H. destruct (Qle_bool b a) eqn:E; [|reflexivity].
    apply Qle_bool_iff in E. exfalso. exact (Qlt_not_le _ _ H E).
Qed.

Lemma Qlt_bool_false_iff (a b : Q) : Qlt_bool a b = false <-> (b <= a)%Q.
Proof.
  split.
  - intros H. destruct (Qlt_le_dec a b) as [Hlt|Hle]; [|exact Hle].
    apply Qlt_bool_iff in Hlt. congruence.
  - intros H. destruct (Qlt_bool a b) eqn:E; [|reflexivity].
    apply Qlt_bool_iff in E. exfalso. exact (Qlt_not_le _ _ E H).
Qed.

(** ** The quality gate *)

(** C7: a non-empty table with fewer than 20 rows is rejected, and the
    diagnostic is the insufficient-observations one carrying its row
    count, whatever the cells hold. *)
Theorem gate_rejects_short_tables (now : Z) (data : table) (ticker : string)
    (Hne : tempty data = false) (Hshort : (tlen data < 20)%nat) :
  _validate_data_quality now (Some data) ticker
  = (false, [GInsufficient ticker (tlen data)]).
Proof.
  unfold _validate_data_quality. rewrite Hne.
  apply Nat.ltb_lt in Hshort. rewrite Hshort. reflexivity.
Qed.

Lemma gate_rejects_short_tables_witness :
  tempty (close_table 0 [inject_Z 5; inject_Z 6; inject_Z 7]) = false /\
  (tlen (close_table 0 [inject_Z 5; inject_Z 6; inject_Z 7]) < 20)%nat /\
  _validate_data_quality 400 (Some (close_table 0 [inject_Z 5; inject_Z 6; inject_Z 7])) "AAA"
  = (false, [GInsufficient "AAA" 3]).
Proof.
  split; [reflexivity|]. split; [vm_compute; lia|].
  exact (gate_rejects_short_tables 400 (close_table 0 [inject_Z 5; inject_Z 6; inject_Z 7])
           "AAA" eq_refl ltac:(vm_compute; lia)).
Defined.

(** C9: the verdict of the gate depends only on the table and the ticker:
    two calls on the same table, at any two times, give the same
    accept/reject result (the clock only decides the staleness warning). *)
Theorem gate_verdict_idempotent (now1 now2 : Z) (data : option table) (ticker : string) :
  fst (_validate_data_quality now1 data ticker) = fst (_validate_data_quality now2 data ticker).
Proof.
  unfold _validate_data_quality.
  destruct data as [t|]; [|reflexivity].
  destruct (tempty t); [reflexivity|].
  destruct (tlen t <? 20); [reflexivity|].
  destruct (Qlt_bool (1#10) (missing_pct t)); [reflexivity|].
  destruct (close_checks t ticker); reflexivity.
Qed.

Lemma tempty_false_of_len (data : table) :
  t_cols data <> [] -> (20 <= tlen data)%nat -> tempty data = false.
Proof.
  unfold tempty, tlen. intros Hc Hl.
  destruct (t_rows data); [simpl in Hl; lia|].
  destruct (t_cols data); [congruence|reflexivity].
Qed.

(** The checks before the missing-data one pass on a table with columns
    and at least 20 rows. *)
Lemma gate_long_table (now : Z) (data : table) (ticker : string) :
  t_cols data <> [] -> (20 <= tlen data)%nat ->
  _validate_data_quality now (Some data) ticker =
  if Qlt_bool (1#10) (missing_pct data)
  then (false, [GTooManyMissing ticker (missing_pct data)])
  else match close_checks data ticker with
       | Some m => (false, [m])
       | None =>
           (true, (if Z.gtb (now - default 0%Z (last_index data)) 10
                   then [GStale ticker (now - default 0%Z (last_index data))%Z] else [])
                  ++ [GValidated ticker])
       end.
Proof.
  intros Hc Hl. unfold _validate_data_quality.
  rewrite (tempty_false_of_len data Hc Hl).
  assert (E : (tlen data <? 20) = false) by (apply Nat.ltb_ge; lia).
  rewrite E. reflexivity.
Qed.

(** C6: on a table with at least 20 rows whose price checks pass, the gate
    rejects exactly when the fraction of missing cells over rows x columns
    exceeds 0.10, with the excessive-missing-data diagnostic carrying the
    fraction; at exactly 10% it accepts. *)
Theorem gate_missing_threshold (now : Z) (data : table) (ticker : string)
    (Hcols : t_cols data <> []) (Hlen : (20 <= tlen data)%nat)
    (Hprices : close_checks data ticker = None) :
  (fst (_validate_data_quality now (Some data) ticker) = false <-> (1#10 < missing_pct data)%Q)
  /\ ((1#10 < missing_pct data)%Q ->
      snd (_validate_data_quality now (Some data) ticker)
      = [GTooManyMissing ticker (missing_pct data)])
  /\ (missing_pct data == 1#10 -> fst (_validate_data_quality now (Some data) ticker) = true).
Proof.
  rewrite (gate_long_table now data ticker Hcols Hlen), Hprices.
  split; [|split].
  - destruct (Qlt_bool (1#10) (missing_pct data)) eqn:E; simpl.
    + apply Qlt_bool_iff in E. tauto.
    + apply Qlt_bool_false_iff in E. split; [discriminate|].
      intros H. exfalso. exact (Qlt_not_le _ _ H E).
  - intros H. apply Qlt_bool_iff in H. rewrite H. reflexivity.
  - intros H. assert (E : Qlt_bool (1#10) (missing_pct data) = false).
    { apply Qlt_bool_false_iff. rewrite H. apply Qle_refl. }
    rewrite E. reflexivity.
Qed.

Lemma gate_missing_threshold_witness :
  missing_pct volume_gap_table == 1#10 /\
  fst (_validate_data_quality 30 (Some volume_gap_table) "AAA") = true.
Proof.
  assert (Hc : t_cols volume_gap_table <> []) by discriminate.
  assert (Hl : (20 <= tlen volume_gap_table)%nat) by (vm_compute; lia).
  assert (Hp : close_checks volume_gap_table "AAA" = None) by (vm_compute; reflexivity).
  assert (Hq : missing_pct volume_gap_table == 1#10) by (vm_compute; reflexivity).
  split; [exact Hq|].
  destruct (gate_missing_threshold 30 volume_gap_table "AAA" Hc Hl Hp) as (_ & _ & H).
  exact (H Hq).
Defined.

(** C5, as stated, fails: a table of five positive closes, without any
    move beyond 50%, is rejected (for having fewer than 20 rows). *)
Lemma gate_extreme_moves_counterexample :
  let data := close_table 0 (repeat (inject_Z 1) 5) in
  column data "Close" = Some (repeat (Num (inject_Z 1)) 5) /\
  Forall (fun x => gt0 x = true) (repeat (Num (inject_Z 1)) 5) /\
  length (filter abs_gt_half (sdropna (pct_change (repeat (Num (inject_Z 1)) 5)))) = 0%nat /\
  fst (_validate_data_quality 10 (Some data) "AAA") = false.
Proof.
  vm_compute. repeat split; repeat constructor.
Qed.

Lemma existsb_le0_positive (xs : list pyfloat) :
  Forall (fun x => gt0 x = true) xs -> existsb le0 xs = false.
Proof.
  induction 1 as [|x xs Hx _ IH]; [reflexivity|].
  simpl. rewrite IH, orb_false_r.
  destruct x as [q| | |]; simpl in *; try reflexivity; try discriminate.
  apply Qlt_bool_iff in Hx. destruct (Qle_bool q 0) eqn:E; [|reflexivity].
  apply Qle_bool_iff in E. exfalso. exact (Qlt_not_le _ _ Hx E).
Qed.

Lemma Qnat_pos (n : nat) : (0 < n)%nat -> (0 < Qnat n)%Q.
Proof.
  intros H. unfold Qnat. change 0%Q with (inject_Z 0). rewrite <- Zlt_Qlt. lia.
Qed.

(** [n * c < k] is [c < k / n] for [n > 0]. *)
Lemma Qlt_mul_div (n k c : Q) : (0 < n)%Q -> (n * c < k <-> c < k / n)%Q.
Proof.
  intros Hn. rewrite <- (Qmult_lt_r c (k / n) n Hn).
  assert (Hk : (k / n * n == k)%Q).
  { rewrite Qmult_comm. apply Qmult_div_r. intros H. rewrite H in Hn. discriminate. }
  rewrite Hk, Qmult_comm. reflexivity.
Qed.

(** C5 (amended): once the earlier checks pass (a table with columns, at
    least 20 rows and at most 10% missing cells) and its non-missing closes
    are present and all positive, the gate rejects exactly when the share
    of day-over-day changes whose absolute value exceeds 0.50 is above
    0.02. *)
Theorem gate_extreme_move_threshold (now : Z) (data : table) (ticker : string)
    (close : list pyfloat)
    (Hcols : t_cols data <> []) (Hlen : (20 <= tlen data)%nat)
    (Hmiss : (missing_pct data <= 1#10)%Q)
    (Hclose : column data "Close" = Some close)
    (Hsome : sdropna close <> [])
    (Hpos : Forall (fun x => gt0 x = true) (sdropna close))
    (Hchg : sdropna (pct_change (sdropna close)) <> []) :
  fst (_validate_data_quality now (Some data) ticker) = false <->
  (2#100 < Qnat (length (filter abs_gt_half (sdropna (pct_change (sdropna close)))))
           / Qnat (length (sdropna (pct_change (sdropna close)))))%Q.
Proof.
  rewrite (gate_long_table now data ticker Hcols Hlen).
  assert (E : Qlt_bool (1#10) (missing_pct data) = false) by (apply Qlt_bool_false_iff; exact Hmiss).
  rewrite E. unfold close_checks. rewrite Hclose.
  assert (E0 : (length (sdropna close) =? 0) = false).
  { apply Nat.eqb_neq. intros H. apply length_zero_iff_nil in H. contradiction. }
  rewrite E0, (existsb_le0_positive _ Hpos).
  set (changes := sdropna (pct_change (sdropna close))) in *.
  assert (Hn : (0 < Qnat (length changes))%Q).
  { apply Qnat_pos. destruct changes; [contradiction|simpl; lia]. }
  rewrite <- (Qlt_mul_div _ _ _ Hn).
  destruct (Qlt_bool (Qnat (length changes) * (2#100)) _) eqn:F; simpl.
  - apply Qlt_bool_iff in F. tauto.
  - apply Qlt_bool_false_iff in F. split; [discriminate|].
    intros H. exfalso. exact (Qlt_not_le _ _ H F).
Qed.

(** The spec's two 100-row series: 3 extreme moves out of 99 are rejected,
    1 out of 99 is accepted. *)
Lemma gate_extreme_move_threshold_witness :
  fst (_validate_data_quality 100 (Some (close_table 0 (spiked_closes [10; 30; 50]%nat))) "AAA")
    = false /\
  fst (_validate_data_quality 100 (Some (close_table 0 (spiked_closes [10]%nat))) "AAA")
    = true.
Proof.
  split.
  - apply (proj2 (gate_extreme_move_threshold 100
             (close_table 0 (spiked_closes [10; 30; 50]%nat)) "AAA"
             (map (fun q => Num q) (spiked_closes [10; 30; 50]%nat))
             ltac:(discriminate) ltac:(vm_compute; lia) ltac:(vm_compute; discriminate)
             ltac:(vm_compute; reflexivity) ltac:(vm_compute; discriminate)
             ltac:(vm_compute; repeat constructor) ltac:(vm_compute; discriminate))).
    vm_compute. reflexivity.
  - pose proof (gate_extreme_move_threshold 100 (close_table 0 (spiked_closes [10]%nat)) "AAA"
             (map (fun q => Num q) (spiked_closes [10]%nat))
             ltac:(discriminate) ltac:(vm_compute; lia) ltac:(vm_compute; discriminate)
             ltac:(vm_compute; reflexivity) ltac:(vm_compute; discriminate)
             ltac:(vm_compute; repeat constructor) ltac:(vm_compute; discriminate)) as H.
    destruct (fst (_validate_data_quality 100 (Some (close_table 0 (spiked_closes [10]%nat))) "AAA"))
      eqn:E; [reflexivity|].
    pose proof (proj1 H eq_refl) as Hf. vm_compute in Hf. discriminate.
Defined.

(** Unfolds the monad's combinators. *)
Ltac unfold_M := unfold mbind, mret, M_bind, M_ret, catch, raise; cbv beta iota.

(** ** The risk-free rate *)

Lemma first_valid_dots (n : nat) (rest : list fred_value) :
  first_valid (repeat FVDot n ++ rest) = first_valid rest.
Proof. induction n as [|n IH]; simpl; auto. Qed.

(** C2 fails on the code: [get_real_time_risk_free_rate] stops at the
    first strategy that yields a value, usable or not. Without a FRED key
    it is exactly the spec's chain of usable values (FRED DGS3MO, Yahoo
    ^IRX, FRED DGS1MO, the first usable value divided by 100). With a key,
    a FRED DGS3MO observation that is not usable (NaN, zero or negative)
    is returned, divided by 100, after that single request, where the
    spec's chain passes over it and takes ^IRX's usable close: with
    DGS3MO at 0.00 and ^IRX at 4.5 the code gives 0 and the spec 0.045. *)
Theorem risk_free_rate_stops_at_unusable :
  (forall (self : pipeline) (w : world) (s : st),
     truthy (fred_api_key self) = false ->
     get_real_time_risk_free_rate self w s
     = resolve_usable (rate_strategies self) rfr_exhausted w s)
  /\
  (forall (self : pipeline) (w : world) (n : nat) (v : pyfloat) (rest : list fred_value)
          (t : table) (c : list pyfloat) (x : pyfloat),
     truthy (fred_api_key self) = true ->
     w_fred w [] "DGS3MO" 10 = FredOk (repeat FVDot n ++ FVNum v :: rest) ->
     usable v = false ->
     w_dl w [FredGet "DGS3MO" 10] "^IRX" (Period "5d") = DLOk t ->
     tempty t = false -> column t "Close" = Some c -> last c = Some x -> usable x = true ->
     run (get_real_time_risk_free_rate self) w
       = (Ok (fdiv v hundred), mk_st [FredGet "DGS3MO" 10] []) /\
     fst (run (resolve_usable (rate_strategies self) rfr_exhausted) w) = Ok (fdiv x hundred))
  /\
  fst (run (get_real_time_risk_free_rate key_pipeline) fred_zero_world)
    = Ok (fdiv (Num 0) hundred) /\
  fst (run (resolve_usable (rate_strategies key_pipeline) rfr_exhausted) fred_zero_world)
    = Ok (fdiv (Num (9#2)) hundred).
Proof.
  split; [|split].
  - intros self w s Hk.
    unfold get_real_time_risk_free_rate, rate_strategies, resolve_usable, fred_strategy,
      irx_strategy, _fetch_from_fred.
    rewrite Hk. cbn [negb]. unfold_M.
    destruct (download "^IRX" (Period "5d") w s) as [[t|e'] s2]; cbn; [|reflexivity].
    destruct (tempty t); cbn; [reflexivity|].
    destruct (get_close t w s2) as [[c|e2] s3]; cbn; [|reflexivity].
    destruct (iloc_last c w s3) as [[l|e3] s4]; cbn; [|reflexivity].
    unfold usable. destruct (negb (is_nan l) && gt0 l); reflexivity.
  - intros self w n v rest t c x Hk Hf Hv Hdl Hne Hc Hl Hx.
    assert (H1 : _fetch_from_fred self "DGS3MO" 10 w (mk_st [] [])
                 = (Ok (Some v), mk_st [FredGet "DGS3MO" 10] [])).
    { unfold _fetch_from_fred, fred_get. rewrite Hk. cbn [negb]. unfold_M.
      cbn [s_calls]. rewrite Hf, first_valid_dots. reflexivity. }
    assert (H2 : irx_strategy w (mk_st [FredGet "DGS3MO" 10] [])
                 = (Ok (Some x), mk_st [FredGet "DGS3MO" 10; Download "^IRX" (Period "5d")] [])).
    { unfold irx_strategy, download, get_close, iloc_last. unfold_M. cbn [s_calls].
      rewrite Hdl. cbv beta iota. rewrite Hne. cbn [negb]. rewrite Hc. cbv beta iota.
      rewrite Hl. reflexivity. }
    unfold run. split.
    + unfold get_real_time_risk_free_rate. rewrite Hk. unfold_M. rewrite H1. reflexivity.
    + unfold resolve_usable, rate_strategies, fred_strategy. unfold_M. rewrite H1.
      cbv beta iota. rewrite Hv. unfold_M. rewrite H2. cbv beta iota. rewrite Hx.
      reflexivity.
  - split; vm_compute; reflexivity.
Qed.

(** C4 fails on the code: the FRED strategies only require the observation
    to parse, so a FRED observation of 0 gives a rate of 0 (not positive)
    and one of NaN gives NaN, while the ^IRX strategy checks both. *)
Theorem risk_free_rate_fred_unchecked :
  fst (run (get_real_time_risk_free_rate key_pipeline) (fred_value_world (Num 0)))
    = Ok (fdiv (Num 0) hundred) /\
  gt0 (fdiv (Num 0) hundred) = false /\
  fst (run (get_real_time_risk_free_rate key_pipeline) (fred_value_world NaN)) = Ok NaN.
Proof. vm_compute. repeat split. Qed.

(** ** The retrying fetcher *)

Lemma yf_attempt_calls (ticker : string) (a b : Z) (w : world) (s : st) :
  s_calls (snd (yf_attempt ticker a b w s)) = s_calls s ++ [Download ticker (Range a b)].
Proof.
  unfold yf_attempt, download. unfold_M.
  destruct (w_dl w (s_calls s) ticker (Range a b)) as [e|t]; [reflexivity|].
  destruct (tempty t); [reflexivity|].
  destruct (tlen (dropna t) <? 20); reflexivity.
Qed.

Lemma retry_loop_calls (ticker : string) (a b : Z) (r : nat) (w : world) (s : st) :
  (length (s_calls (snd (retry_loop (yf_attempt ticker a b) r w s)))
   <= length (s_calls s) + S r)%nat.
Proof.
  revert s. induction r as [|r IH]; intros s; simpl; unfold catch.
  - pose proof (yf_attempt_calls ticker a b w s) as H.
    destruct (yf_attempt ticker a b w s) as [[x|e] s1]; simpl in *;
      rewrite H, length_app; simpl; lia.
  - pose proof (yf_attempt_calls ticker a b w s) as H.
    destruct (yf_attempt ticker a b w s) as [[x|e] s1] eqn:E; simpl in *.
    + rewrite H, length_app; simpl; lia.
    + specialize (IH s1). rewrite H, length_app in IH. simpl in IH. lia.
Qed.

(** C3 (amended): [_fetch_from_yfinance] makes at most 3 download
    attempts; a source failing on the first two attempts and answering a
    usable table on the third yields that table (with its incomplete rows
    dropped); a source failing on all three makes it raise the third
    attempt's own exception, unchanged, after exactly 3 attempts. *)
Theorem yfinance_retry (ticker period : string) :
  (forall w : world,
     (length (s_calls (snd (run (_fetch_from_yfinance ticker period) w))) <= 3)%nat)
  /\
  (forall (e1 e2 : exn) (t : table),
     tempty t = false -> (20 <= tlen (dropna t))%nat ->
     fst (run (_fetch_from_yfinance ticker period)
              (scripted_world [DLRaise e1; DLRaise e2; DLOk t] (DLOk t)))
     = Ok (dropna t))
  /\
  (forall e1 e2 e3 : exn,
     run (_fetch_from_yfinance ticker period)
         (scripted_world [DLRaise e1; DLRaise e2; DLRaise e3] (DLRaise e3))
     = (Err e3, mk_st (repeat (Download ticker (Range (0 - period_days period) 0)) 3) [])).
Proof.
  split; [|split].
  - intros w. unfold run, _fetch_from_yfinance, get_now. unfold_M.
    pose proof (retry_loop_calls ticker (w_now w - period_days period) (w_now w) 2 w (mk_st [] []))
      as H.
    simpl in H. exact H.
  - intros e1 e2 t Hne Hlen.
    assert (E : (tlen (dropna t) <? 20) = false) by (apply Nat.ltb_ge; lia).
    unfold run, _fetch_from_yfinance, get_now, max_retries. unfold_M. simpl.
    unfold catch, yf_attempt, download. unfold_M. simpl.
    rewrite Hne, E. reflexivity.
  - intros e1 e2 e3. reflexivity.
Qed.

Lemma yfinance_retry_witness :
  fst (run (_fetch_from_yfinance "AAA" "1y")
           (scripted_world [DLRaise timeout_error; DLRaise timeout_error;
                            DLOk (close_table 0 (spiked_closes []))]
                           (DLOk (close_table 0 (spiked_closes [])))))
  = Ok (dropna (close_table 0 (spiked_closes []))).
Proof.
  apply (proj1 (proj2 (yfinance_retry "AAA" "1y")) timeout_error timeout_error);
    vm_compute; [reflexivity | lia].
Defined.

(** C3, as stated, fails: after three failed attempts the fetcher re-raises
    the source's own exception, which carries neither the ticker nor the
    number of attempts. *)
Lemma yfinance_retry_untagged_counterexample :
  run (_fetch_from_yfinance "AAA" "1y") (scripted_world [] (DLRaise timeout_error))
  = (Err (mk_exn (ExternalError "ReadTimeout") "Read timed out."),
     mk_st (repeat (Download "AAA" (Range (-365) 0)) 3) []).
Proof. vm_compute. reflexivity. Qed.

(** ** The batch fetch *)

Section Batch.
Variables (dl : string -> window -> dl_result) (fred : string -> nat -> fred_result) (now : Z).
Let W := static_world dl fred now.

Lemma yf_attempt_blind (ticker : string) (a b : Z) (s1 s2 : st) :
  fst (yf_attempt ticker a b W s1) = fst (yf_attempt ticker a b W s2).
Proof.
  unfold yf_attempt, download. unfold_M. simpl.
  destruct (dl ticker (Range a b)) as [e|t]; [reflexivity|].
  destruct (tempty t); [reflexivity|].
  destruct (tlen (dropna t) <? 20); reflexivity.
Qed.

Lemma retry_loop_blind (ticker : string) (a b : Z) (r : nat) (s1 s2 : st) :
  fst (retry_loop (yf_attempt ticker a b) r W s1) = fst (retry_loop (yf_attempt ticker a b) r W s2).
Proof.
  revert s1 s2. induction r as [|r IH]; intros s1 s2; simpl; unfold catch;
    pose proof (yf_attempt_blind ticker a b s1 s2) as H;
    destruct (yf_attempt ticker a b W s1) as [[x1|e1] t1];
    destruct (yf_attempt ticker a b W s2) as [[x2|e2] t2]; simpl in H; try discriminate;
    try (injection H as ->); auto.
Qed.

Lemma fetch_yf_blind (ticker period : string) (s : st) :
  fst (_fetch_from_yfinance ticker period W s) = fst (run (_fetch_from_yfinance ticker period) W).
Proof.
  unfold run, _fetch_from_yfinance, get_now. unfold_M. apply retry_loop_blind.
Qed.

Lemma say_all_ok (ms : list msg) (w : world) (s : st) : fst (say_all ms w s) = Ok tt.
Proof.
  revert s. induction ms as [|m ms IH]; intros s; [reflexivity|].
  simpl. unfold_M. unfold say. apply IH.
Qed.

Lemma rejected_by_gate_value (validate : bool) (data : table) (ticker : string) (w : world) (s : st) :
  fst (rejected_by_gate validate data ticker w s)
  = Ok (validate && negb (fst (_validate_data_quality (w_now w) (Some data) ticker))).
Proof.
  unfold rejected_by_gate. destruct validate; [|reflexivity].
  unfold get_now. unfold_M.
  destruct (_validate_data_quality (w_now w) (Some data) ticker) as [ok msgs]. simpl.
  pose proof (say_all_ok (MGate <$> msgs) w s) as H.
  destruct (say_all (MGate <$> msgs) w s) as [[u|e] s']; simpl in *; congruence.
Qed.

Lemma fetch_one_static (period : string) (validate : bool) (ticker : string)
    (acc : gmap string table * list string) (s : st) :
  fst (fetch_one period validate ticker acc W s)
  = Ok (batch_step (isolated_outcome W period validate) acc ticker).
Proof.
  destruct acc as [accepted failed]. unfold fetch_one, batch_step, isolated_outcome.
  rewrite <- (fetch_yf_blind ticker period s). unfold_M.
  destruct (_fetch_from_yfinance ticker period W s) as [[data|e] s1]; [|reflexivity].
  pose proof (rejected_by_gate_value validate data ticker W s1) as H.
  destruct (rejected_by_gate validate data ticker W s1) as [[b|e] s2];
    [|discriminate].
  assert (Hb : b = validate && negb (fst (_validate_data_quality (w_now W) (Some data) ticker)))
    by (injection H; auto).
  rewrite Hb. cbn [fst].
  destruct (validate && negb (fst (_validate_data_quality (w_now W) (Some data) ticker)));
    reflexivity.
Qed.

Lemma fetch_loop_static (period : string) (validate : bool) (tickers : list string) :
  forall (acc : gmap string table * list string) (s : st),
  fst (fetch_loop period validate tickers acc W s)
  = Ok (foldl (batch_step (isolated_outcome W period validate)) acc tickers).
Proof.
  induction tickers as [|ticker rest IH]; intros acc s; [reflexivity|].
  simpl. unfold_M.
  pose proof (fetch_one_static period validate ticker acc s) as H.
  destruct (fetch_one period validate ticker acc W s) as [[acc'|e] s1]; simpl in H;
    [|discriminate].
  injection H as ->. apply IH.
Qed.

End Batch.

(** C1 (amended): in a world whose answers do not depend on call history,
    every identifier is processed and contributes exactly its own outcome;
    when none is accepted the call raises "No data could be fetched for any
    ticker"; otherwise it returns the accepted identifier-to-table mapping
    only, and the failed identifiers, in order, are reported by the final
    warning rather than returned. *)
Theorem fetch_many_partial_success (dl : string -> window -> dl_result)
    (fred : string -> nat -> fred_result) (now : Z)
    (tickers : list string) (period : string) (validate : bool) :
  let w := static_world dl fred now in
  let outcome := foldl (batch_step (isolated_outcome w period validate)) (∅, []) tickers in
  (size outcome.1 = 0%nat ->
     fst (run (fetch_real_time_stock_data (TList tickers) period validate) w) = Err no_data_error)
  /\
  (size outcome.1 <> 0%nat ->
     exists s' : st,
       run (fetch_real_time_stock_data (TList tickers) period validate) w = (Ok outcome.1, s') /\
       (outcome.2 <> [] -> last (s_log s') = Some (MFailedTickers outcome.2))).
Proof.
  intros w outcome.
  pose proof (fetch_loop_static dl fred now period validate tickers (∅, []) (mk_st [] [])) as H.
  fold w in H. fold outcome in H.
  unfold run, fetch_real_time_stock_data. unfold_M.
  destruct (fetch_loop period validate tickers (∅, []) w (mk_st [] [])) as [[[acc f]|e] s1];
    simpl in H; [|discriminate].
  clearbody outcome. injection H as Hacc. subst outcome. cbn [fst snd].
  rename acc into accepted, f into failed.
  split.
  - intros Hz. rewrite Hz. reflexivity.
  - intros Hnz. apply Nat.eqb_neq in Hnz. rewrite Hnz.
    destruct failed as [|x xs].
    + eexists. split; [reflexivity|]. intros Hc. congruence.
    + eexists. split; [reflexivity|]. intros _. simpl. apply last_snoc.
Qed.

(** C1, as stated, fails: with AAA and CCC answering clean data and BBB
    too few rows, the call succeeds with a two-entry mapping, but what it
    returns is the mapping alone; the failed list ["BBB"] only appears in
    the printed warning. *)
Lemma fetch_many_counterexample :
  exists (m : gmap string table) (s' : st),
    run (fetch_real_time_stock_data (TList ["AAA"; "BBB"; "CCC"]) "1y" true) batch_world
      = (Ok m, s') /\
    size m = 2%nat /\ m !! "BBB"%string = None /\
    last (s_log s') = Some (MFailedTickers ["BBB"]).
Proof.
  eexists _, _. split; [vm_compute; reflexivity|].
  vm_compute. repeat split.
Qed.

Lemma fetch_one_cases (period : string) (validate : bool) (ticker : string)
    (accepted : gmap string table) (failed : list string) (w : world) (s : st) :
  exists (r : gmap string table * list string) (s' : st),
    fetch_one period validate ticker (accepted, failed) w s = (Ok r, s') /\
    (r = (accepted, failed ++ [ticker]) \/ exists data, r = (<[ticker := data]> accepted, failed)).
Proof.
  unfold fetch_one. unfold_M.
  destruct (_fetch_from_yfinance ticker period w s) as [[data|e] s1].
  - destruct (rejected_by_gate validate data ticker w s1) as [[b|e] s2].
    + destruct b; eauto 6.
    + eauto.
  - eauto.
Qed.

(** C10: a single string ticker is treated as the one-element list of it,
    and a successful call returns a mapping keyed by exactly that ticker. *)
Theorem fetch_single_string (ticker period : string) (validate : bool) :
  fetch_real_time_stock_data (TStr ticker) period validate
    = fetch_real_time_stock_data (TList [ticker]) period validate /\
  (forall (w : world) (m : gmap string table) (s' : st),
     run (fetch_real_time_stock_data (TStr ticker) period validate) w = (Ok m, s') ->
     dom m = {[ticker]}).
Proof.
  split; [reflexivity|].
  intros w m s'. unfold run, fetch_real_time_stock_data, fetch_loop. unfold_M.
  destruct (fetch_one_cases period validate ticker ∅ [] w (mk_st [] []))
    as (r & s1 & -> & [-> | (data & ->)]); simpl.
  - discriminate.
  - rewrite map_size_insert, lookup_empty. simpl.
    intros H. injection H as <- _.
    rewrite dom_insert_L, dom_empty_L. set_solver.
Qed.

Lemma fetch_single_string_witness :
  exists (m : gmap string table) (s' : st),
    run (fetch_real_time_stock_data (TStr "AAA") "1y" true) batch_world = (Ok m, s') /\
    dom m = {["AAA"%string]}.
Proof.
  eexists _, _. split; [vm_compute; reflexivity|].
  eapply (proj2 (fetch_single_string "AAA" "1y" true) batch_world).
  vm_compute. reflexivity.
Defined.

(** ** The health check *)

Definition healthy_entry (kv : string * string) : Prop := str_contains "HEALTHY" kv.2 = true.

Lemma overall_of_two (a b : string) :
  let sources := [("yfinance", a); ("fred", b)]%string in
  (overall_of sources = "HEALTHY ✅"%string <-> Forall healthy_entry sources) /\
  (overall_of sources = "DEGRADED ⚠️"%string <->
     Exists healthy_entry sources /\ Exists (fun kv => ~ healthy_entry kv) sources) /\
  (overall_of sources = "CRITICAL ❌"%string <-> Forall (fun kv => ~ healthy_entry kv) sources).
Proof.
  cbv zeta. rewrite !Forall_cons, !Exists_cons, !Forall_nil, !Exists_nil.
  unfold overall_of, healthy_entry. cbn [List.filter length snd].
  destruct (str_contains "HEALTHY" a), (str_contains "HEALTHY" b); simpl.
  all: intuition (try discriminate; try congruence).
Qed.

(** Runs each closed step [m w s] of a monadic computation to its result. *)
Ltac destruct_steps w :=
  repeat match goal with
  | |- context [match ?m w ?s with (_, _) => _ end] =>
      let r := fresh "r" in let s' := fresh "s" in
      destruct (m w s) as [r s']; destruct r; cbv beta iota
  end.

Lemma health_check_shape (self : pipeline) (w : world) :
  exists (yf_status fred_status : string) (rep : health_report) (s' : st),
    run (system_health_check self) w = (Ok rep, s') /\
    data_sources rep = [("yfinance", yf_status); ("fred", fred_status)]%string /\
    overall_status rep = overall_of (data_sources rep) /\
    (forall t : table, w_dl w [] "AAPL" (Period "5d") = DLOk t -> tempty t = false ->
       yf_status = "HEALTHY ✅"%string) /\
    (truthy (fred_api_key self) = false -> fred_status = "NO API KEY ⚠️"%string).
Proof.
  unfold run, system_health_check. unfold_M.
  destruct (download "AAPL" (Period "5d") w (mk_st [] [])) as [[t|e] s1] eqn:Ed; cbv beta iota;
    destruct (truthy (fred_api_key self)) eqn:Hk; cbv beta iota;
    destruct_steps w;
    (eexists _, _, _, _; split; [reflexivity|]; split; [reflexivity|]; split; [reflexivity|]);
    unfold download in Ed; simpl in Ed;
    (split; [intros t' Hdl Hne; rewrite Hdl in Ed;
             first [discriminate Ed | injection Ed; intros; subst; rewrite ?Hne; reflexivity]
            |intros Hf; discriminate || reflexivity]).
Qed.

(** C8 (amended): [system_health_check] never raises: it always returns a
    report. Its overall status is HEALTHY when every entry of the
    data_sources section (the yfinance probe and the FRED entry) reads as
    healthy (contains "HEALTHY"), DEGRADED when some but not all do, and
    CRITICAL when none do. A successful yfinance probe reads "HEALTHY ✅";
    without a FRED credential the FRED entry is "NO API KEY ⚠️", which is
    not an error but does not count as healthy, so the overall status is
    then never HEALTHY. *)
Theorem health_check_status (self : pipeline) (w : world) :
  exists (rep : health_report) (s' : st),
    run (system_health_check self) w = (Ok rep, s') /\
    map fst (data_sources rep) = ["yfinance"; "fred"]%string /\
    (overall_status rep = "HEALTHY ✅"%string <-> Forall healthy_entry (data_sources rep)) /\
    (overall_status rep = "DEGRADED ⚠️"%string <->
       Exists healthy_entry (data_sources rep) /\
       Exists (fun kv => ~ healthy_entry kv) (data_sources rep)) /\
    (overall_status rep = "CRITICAL ❌"%string <->
       Forall (fun kv => ~ healthy_entry kv) (data_sources rep)) /\
    (forall t : table, w_dl w [] "AAPL" (Period "5d") = DLOk t -> tempty t = false ->
       data_sources rep !! 0%nat = Some ("yfinance", "HEALTHY ✅")%string) /\
    (truthy (fred_api_key self) = false ->
       data_sources rep !! 1%nat = Some ("fred", "NO API KEY ⚠️")%string /\
       overall_status rep <> "HEALTHY ✅"%string).
Proof.
  destruct (health_check_shape self w)
    as (a & b & rep & s' & Hrun & Hsrc & Hov & Hyf & Hfred).
  exists rep, s'. rewrite Hov, Hsrc.
  destruct (overall_of_two a b) as (Hh & Hd & Hc).
  split; [exact Hrun|]. split; [reflexivity|].
  split; [exact Hh|]. split; [exact Hd|]. split; [exact Hc|].
  split.
  - intros t Hdl Hne. rewrite (Hyf t Hdl Hne). reflexivity.
  - intros Hk. specialize (Hfred Hk). split; [rewrite Hfred; reflexivity|].
    intros Heq. apply Hh in Heq.
    rewrite Forall_cons, Forall_cons in Heq. destruct Heq as (_ & Hn & _).
    unfold healthy_entry in Hn. rewrite Hfred in Hn. vm_compute in Hn. discriminate.
Qed.

(** C8, as stated, fails: without a FRED credential and with every probe
    answering, the overall status is DEGRADED, not HEALTHY. *)
Lemma health_check_no_key_counterexample :
  exists (rep : health_report) (s' : st),
    run (system_health_check no_key_pipeline) (download_world (close_table 0 (spiked_closes [])))
      = (Ok rep, s') /\
    data_sources rep = [("yfinance", "HEALTHY ✅"); ("fred", "NO API KEY ⚠️")]%string /\
    overall_status rep = "DEGRADED ⚠️"%string.
Proof.
  eexists _, _. split; [vm_compute; reflexivity|]. vm_compute. split; reflexivity.
Qed.

(** * Further properties of the pipeline *)

(** ** The FRED client *)

(** [_fetch_from_fred] without a key raises "FRED API key required" before
    any request. With a key it makes exactly one request, for the series
    and limit given: a request error propagates; otherwise the leading
    missing observations ('.') are skipped and the first other one is
    parsed (its value returned, or its parse error raised), and an answer
    made only of '.' gives [None]. *)
Theorem fred_client (self : pipeline) (series_id : string) (limit : nat) (w : world) (s : st) :
  (truthy (fred_api_key self) = false ->
     _fetch_from_fred self series_id limit w s = (Err (value_error "FRED API key required"), s)) /\
  (truthy (fred_api_key self) = true ->
     let s' := record_call (FredGet series_id limit) s in
     (forall e, w_fred w (s_calls s) series_id limit = FredRaise e ->
        _fetch_from_fred self series_id limit w s = (Err e, s')) /\
     (forall n x rest,
        w_fred w (s_calls s) series_id limit = FredOk (repeat FVDot n ++ FVNum x :: rest) ->
        _fetch_from_fred self series_id limit w s = (Ok (Some x), s')) /\
     (forall n e rest,
        w_fred w (s_calls s) series_id limit = FredOk (repeat FVDot n ++ FVBad e :: rest) ->
        _fetch_from_fred self series_id limit w s = (Err e, s')) /\
     (forall n, w_fred w (s_calls s) series_id limit = FredOk (repeat FVDot n) ->
        _fetch_from_fred self series_id limit w s = (Ok None, s'))).
Proof.
  unfold _fetch_from_fred. split.
  - intros Hk. rewrite Hk. reflexivity.
  - intros Hk. cbv zeta. rewrite Hk. cbn [negb]. unfold fred_get. unfold_M.
    split; [|split; [|split]].
    + intros e H. rewrite H. reflexivity.
    + intros n x rest H. rewrite H. cbv beta iota. rewrite first_valid_dots. reflexivity.
    + intros n e rest H. rewrite H. cbv beta iota. rewrite first_valid_dots. reflexivity.
    + intros n H. rewrite H. cbv beta iota.
      rewrite <- (app_nil_r (repeat FVDot n)), first_valid_dots. reflexivity.
Qed.

(** ** The retrying fetcher: window and result *)

Lemma filter_is_nan_nil (l : list pyfloat) :
  existsb is_nan l = false -> filter (fun x => is_nan x) l = [].
Proof.
  induction l as [|x l IH]; [reflexivity|].
  simpl. intros H. apply orb_false_iff in H as [H1 H2].
  rewrite filter_cons, H1. simpl. apply IH, H2.
Qed.

Lemma null_count_dropna (t : table) : null_count (dropna t) = 0%nat.
Proof.
  unfold null_count, dropna. cbn [t_rows].
  induction (t_rows t) as [|r rs IH]; [reflexivity|].
  rewrite filter_cons. destruct (existsb is_nan r.2) eqn:E; simpl.
  - exact IH.
  - rewrite filter_is_nan_nil by exact E. simpl. exact IH.
Qed.

Lemma yf_attempt_state (ticker : string) (a b : Z) (w : world) (s : st) :
  snd (yf_attempt ticker a b w s) = record_call (Download ticker (Range a b)) s.
Proof.
  unfold yf_attempt, download. unfold_M.
  destruct (w_dl w (s_calls s) ticker (Range a b)) as [e|t]; [reflexivity|].
  destruct (tempty t); [reflexivity|].
  destruct (tlen (dropna t) <? 20); reflexivity.
Qed.

Lemma yf_attempt_ok (ticker : string) (a b : Z) (w : world) (s : st) (t : table) :
  fst (yf_attempt ticker a b w s) = Ok t -> (20 <= tlen t)%nat /\ null_count t = 0%nat.
Proof.
  unfold yf_attempt, download. unfold_M.
  destruct (w_dl w (s_calls s) ticker (Range a b)) as [e|t0]; [discriminate|].
  destruct (tempty t0); [discriminate|].
  destruct (tlen (dropna t0) <? 20) eqn:E; [discriminate|].
  intros H. injection H as <-. split; [apply Nat.ltb_ge, E | apply null_count_dropna].
Qed.

Lemma retry_loop_shape (ticker : string) (a b : Z) (r : nat) (w : world) (s : st) :
  exists k, (1 <= k <= S r)%nat /\
    snd (retry_loop (yf_attempt ticker a b) r w s)
      = mk_st (s_calls s ++ repeat (Download ticker (Range a b)) k) (s_log s) /\
    (forall t, fst (retry_loop (yf_attempt ticker a b) r w s) = Ok t ->
       (20 <= tlen t)%nat /\ null_count t = 0%nat).
Proof.
  revert s. induction r as [|r IH]; intros s; simpl; unfold catch;
    pose proof (yf_attempt_state ticker a b w s) as Hs;
    pose proof (yf_attempt_ok ticker a b w s) as Ho;
    destruct (yf_attempt ticker a b w s) as [[x|e] s1]; simpl in Hs, Ho; subst s1.
  - exists 1%nat. split; [lia|]. split; [reflexivity|]. exact Ho.
  - exists 1%nat. split; [lia|]. split; [reflexivity|]. unfold raise. discriminate.
  - exists 1%nat. split; [lia|]. split; [reflexivity|]. exact Ho.
  - destruct (IH (record_call (Download ticker (Range a b)) s)) as (k & Hk & Hst & Hok).
    exists (S k). split; [lia|]. split; [|exact Hok].
    rewrite Hst. simpl. rewrite <- app_assoc. reflexivity.
Qed.

Lemma fetch_yf_shape (ticker period : string) (w : world) (s : st) :
  let window := Range (w_now w - period_days period) (w_now w) in
  exists k, (1 <= k <= 3)%nat /\
    snd (_fetch_from_yfinance ticker period w s)
      = mk_st (s_calls s ++ repeat (Download ticker window) k) (s_log s) /\
    (forall t, fst (_fetch_from_yfinance ticker period w s) = Ok t ->
       (20 <= tlen t)%nat /\ null_count t = 0%nat).
Proof.
  unfold _fetch_from_yfinance, get_now. unfold_M. apply retry_loop_shape.
Qed.

(** [_fetch_from_yfinance] downloads only the ticker asked for, over the
    window from [period_days period] days before now up to now, once to
    three times; a table it returns has at least 20 rows and no missing
    cell. *)
Theorem yfinance_window_and_clean_result (ticker period : string) (w : world) (s : st) :
  let window := Range (w_now w - period_days period) (w_now w) in
  exists k, (1 <= k <= 3)%nat /\
    s_calls (snd (_fetch_from_yfinance ticker period w s))
      = s_calls s ++ repeat (Download ticker window) k /\
    (forall t, fst (_fetch_from_yfinance ticker period w s) = Ok t ->
       (20 <= tlen t)%nat /\ null_count t = 0%nat).
Proof.
  destruct (fetch_yf_shape ticker period w s) as (k & Hk & Hs & Ho).
  exists k. split; [exact Hk|]. split; [rewrite Hs; reflexivity|exact Ho].
Qed.

(** ** The risk-free rate, further *)

Lemma first_valid_pure (obs : list fred_value) (w : world) (s : st) :
  exists r, first_valid obs w s = (r, s).
Proof.
  induction obs as [|[|x|e] rest IH]; simpl; eauto.
Qed.

Lemma fred_step (self : pipeline) (sid : string) (lim : nat) (w : world) (s : st) :
  exists r, _fetch_from_fred self sid lim w s
            = (r, if truthy (fred_api_key self) then record_call (FredGet sid lim) s else s).
Proof.
  unfold _fetch_from_fred. destruct (truthy (fred_api_key self)); [|eexists; reflexivity].
  cbn [negb]. unfold fred_get. unfold_M.
  destruct (w_fred w (s_calls s) sid lim) as [e|obs]; [eexists; reflexivity|].
  apply first_valid_pure.
Qed.

Lemma download_step (sym : string) (win : window) (w : world) (s : st) :
  exists r, download sym win w s = (r, record_call (Download sym win) s).
Proof.
  unfold download. destruct (w_dl w (s_calls s) sym win); eexists; reflexivity.
Qed.

(** Runs the steps of the rate chain. *)
Ltac rate_steps Hk :=
  repeat (first
    [ match goal with
      | |- context [_fetch_from_fred ?self ?sid ?lim ?w ?s] =>
          let r := fresh "r" in let E := fresh "E" in
          destruct (fred_step self sid lim w s) as [r E]; rewrite Hk in E; rewrite E; clear E;
          destruct r as [[?|]|?]
      end
    | match goal with
      | |- context [download ?sym ?win ?w ?s] =>
          let r := fresh "r" in let E := fresh "E" in
          destruct (download_step sym win w s) as [r E]; rewrite E; clear E; destruct r
      end
    | match goal with
      | |- context [get_close ?t ?w ?s] => unfold get_close, mret, M_ret, raise; destruct (column t "Close")
      end
    | match goal with
      | |- context [iloc_last ?c ?w ?s] => unfold iloc_last, mret, M_ret, raise; destruct (last c)
      end
    | match goal with
      | |- context [if ?b then _ else _] =>
          lazymatch b with true => fail | false => fail | _ => destruct b eqn:? end
      end ]; cbv beta iota).

Lemma fdiv_hundred_pos (x : pyfloat) :
  negb (is_nan x) && gt0 x = true -> gt0 (fdiv x hundred) = true /\ is_nan (fdiv x hundred) = false.
Proof.
  destruct x as [q| | |]; simpl; try discriminate; [|auto].
  intros H. apply Qlt_bool_iff in H. split; [|reflexivity].
  apply Qlt_bool_iff. unfold hundred. apply Qlt_shift_div_l; [reflexivity|]. 
  rewrite Qmult_0_l. exact H.
Qed.

Lemma rate_shape (self : pipeline) (w : world) (s : st) :
  exists l,
    snd (get_real_time_risk_free_rate self w s) = mk_st (s_calls s ++ l) (s_log s) /\ l <> [] /\
    l `prefix_of` (if truthy (fred_api_key self)
                   then [FredGet "DGS3MO" 10; Download "^IRX" (Period "5d"); FredGet "DGS1MO" 10]
                   else [Download "^IRX" (Period "5d")]) /\
    match fst (get_real_time_risk_free_rate self w s) with
    | Ok r => truthy (fred_api_key self) = false -> gt0 r = true /\ is_nan r = false
    | Err e => e = rfr_exhausted
    end.
Proof.
  unfold get_real_time_risk_free_rate. unfold_M.
  destruct (truthy (fred_api_key self)) eqn:Hk; cbv beta iota; rate_steps Hk.
  all: eexists; split; [unfold record_call; cbn; rewrite <- ?app_assoc; reflexivity|].
  all: split; [cbn; discriminate|].
  all: split; [cbn; eexists; reflexivity|].
  all: cbn [fst]; try reflexivity; try (intros Hf; discriminate Hf).
  all: intros _; apply fdiv_hundred_pos; assumption.
Qed.

(** [get_real_time_risk_free_rate] raises nothing but its own "Unable to
    fetch real-time risk-free rate" error: a failure of any source, FRED
    or Yahoo, is swallowed and the next source tried. *)
Theorem risk_free_rate_only_error (self : pipeline) (w : world) (s : st) :
  match fst (get_real_time_risk_free_rate self w s) with
  | Ok _ => True
  | Err e => e = rfr_exhausted
  end.
Proof.
  destruct (rate_shape self w s) as (l & _ & _ & _ & H).
  destruct (fst (get_real_time_risk_free_rate self w s)); [exact I|exact H].
Qed.

(** The requests made by [get_real_time_risk_free_rate]: at least one and,
    in order, a prefix of FRED DGS3MO (10 observations), the Yahoo ^IRX
    download over 5 days, FRED DGS1MO (10 observations); without a FRED key
    FRED is never asked and the only request is the ^IRX download. *)
Theorem risk_free_rate_requests (self : pipeline) (w : world) (s : st) :
  exists l,
    s_calls (snd (get_real_time_risk_free_rate self w s)) = s_calls s ++ l /\ l <> [] /\
    l `prefix_of` (if truthy (fred_api_key self)
                   then [FredGet "DGS3MO" 10; Download "^IRX" (Period "5d"); FredGet "DGS1MO" 10]
                   else [Download "^IRX" (Period "5d")]).
Proof.
  destruct (rate_shape self w s) as (l & Hs & Hne & Hp & _).
  exists l. rewrite Hs. split; [reflexivity|]. split; assumption.
Qed.

(** The module-level [get_risk_free_rate] goes through the key-less
    singleton: it never contacts FRED and makes exactly one request, the
    ^IRX download; a rate it returns is positive and not NaN, and
    otherwise it raises the "Unable to fetch" error. *)
Theorem get_risk_free_rate_yahoo_only (w : world) (s : st) :
  s_calls (snd (get_risk_free_rate w s)) = s_calls s ++ [Download "^IRX" (Period "5d")] /\
  match fst (get_risk_free_rate w s) with
  | Ok r => gt0 r = true /\ is_nan r = false
  | Err e => e = rfr_exhausted
  end.
Proof.
  unfold get_risk_free_rate.
  destruct (rate_shape production_pipeline w s) as (l & Hs & Hne & Hp & H).
  cbn in Hp. split.
  - rewrite Hs. cbn [s_calls]. f_equal. destruct Hp as [k Hk].
    destruct l as [|x l']; [congruence|]. simpl in Hk. injection Hk as -> Hk'.
    symmetry in Hk'. apply app_eq_nil in Hk' as [-> _]. reflexivity.
  - destruct (fst (get_real_time_risk_free_rate production_pipeline w s));
      [apply H; reflexivity|exact H].
Qed.

(** ** Market data, further *)

Lemma fetch_yf_first_ok (ticker period : string) (w : world) (s : st) (t : table) :
  let window := Range (w_now w - period_days period) (w_now w) in
  w_dl w (s_calls s) ticker window = DLOk t -> tempty t = false -> (20 <= tlen (dropna t))%nat ->
  _fetch_from_yfinance ticker period w s = (Ok (dropna t), record_call (Download ticker window) s).
Proof.
  cbv zeta. intros Hdl Hne Hlen.
  assert (E : (tlen (dropna t) <? 20) = false) by (apply Nat.ltb_ge; lia).
  unfold _fetch_from_yfinance, get_now, max_retries. unfold_M. cbn [Nat.sub retry_loop].
  unfold catch, yf_attempt, download. unfold_M. rewrite Hdl. cbv beta iota.
  rewrite Hne, E. reflexivity.
Qed.

Lemma fetch_yf_all_fail (ticker period : string) (w : world) (s : st) (e : exn) :
  let D := Download ticker (Range (w_now w - period_days period) (w_now w)) in
  (forall h win, w_dl w h ticker win = DLRaise e) ->
  _fetch_from_yfinance ticker period w s = (Err e, record_call D (record_call D (record_call D s))).
Proof.
  cbv zeta. intros H.
  unfold _fetch_from_yfinance, get_now, max_retries. unfold_M. cbn [Nat.sub retry_loop].
  unfold catch, yf_attempt, download. unfold_M. rewrite !H. reflexivity.
Qed.

Lemma column_length (t : table) (k : string) (c : list pyfloat) :
  column t k = Some c -> length c = tlen t.
Proof.
  unfold column, tlen. destruct (col_pos k (t_cols t)); [|discriminate].
  intros H. injection H as <-. apply length_map.
Qed.

Lemma sdropna_id (l : list pyfloat) : Forall (fun x => is_nan x = false) l -> sdropna l = l.
Proof.
  induction 1 as [|x l Hx _ IH]; [reflexivity|].
  unfold sdropna in *. rewrite filter_cons, Hx. simpl. f_equal. exact IH.
Qed.

Lemma pct_change_tail_num (x : pyfloat) (rest : list pyfloat) :
  Forall (fun y => exists q, y = Num q /\ (0 < q)%Q) (x :: rest) ->
  Forall (fun y => is_nan y = false) (zip_with (fun prev cur => fsub1 (fdiv cur prev)) (x :: rest) rest) /\
  length (zip_with (fun prev cur => fsub1 (fdiv cur prev)) (x :: rest) rest) = length rest.
Proof.
  revert x. induction rest as [|y rest IH]; intros x H; [split; [constructor|reflexivity]|].
  inversion H as [|? ? Hx Hrest]; subst. inversion Hrest as [|? ? Hy _]; subst.
  destruct Hx as (p & -> & Hp). destruct Hy as (q & -> & Hq).
  destruct (IH (Num q) Hrest) as [IH1 IH2].
  match goal with
  | |- context [zip_with ?f (Num p :: Num q :: rest) (Num q :: rest)] =>
      change (zip_with f (Num p :: Num q :: rest) (Num q :: rest))
        with (f (Num p) (Num q) :: zip_with f (Num q :: rest) rest)
  end.
  cbn [length]. split; [|rewrite IH2; reflexivity].
  constructor; [|exact IH1].
  unfold fdiv. destruct (Qeq_bool p 0) eqn:E; [|reflexivity].
  apply Qeq_bool_iff in E. rewrite E in Hp. discriminate.
Qed.

Lemma pct_change_positive (c : list pyfloat) :
  Forall (fun x => exists q, x = Num q /\ (0 < q)%Q) c ->
  length (sdropna (pct_change c)) = (length c - 1)%nat.
Proof.
  destruct c as [|x rest]; [reflexivity|]. intros H.
  destruct (pct_change_tail_num x rest H) as [H1 H2].
  unfold pct_change. unfold sdropna at 1. rewrite filter_cons.
  destruct (decide _) as [Hd|_]; [destruct Hd|].
  fold (sdropna (zip_with (fun prev cur => fsub1 (fdiv cur prev)) (x :: rest) rest)).
  rewrite sdropna_id by exact H1. rewrite H2. simpl. lia.
Qed.

(** [get_real_time_market_data] keeps S&P 500 (^GSPC) data with at least
    50 clean rows: it returns the daily returns of its closes, made from
    the one ^GSPC download, without trying VTI; when the closes are
    positive there is one return less than rows. *)
Theorem market_data_primary (period : string) (w : world) (t : table) (c : list pyfloat) :
  let window := Range (w_now w - period_days period) (w_now w) in
  w_dl w [] "^GSPC" window = DLOk t -> tempty t = false -> (50 <= tlen (dropna t))%nat ->
  column (dropna t) "Close" = Some c ->
  run (get_real_time_market_data period) w
    = (Ok (sdropna (pct_change c)), mk_st [Download "^GSPC" window] []) /\
  (Forall (fun x => exists q, x = Num q /\ (0 < q)%Q) c ->
     length (sdropna (pct_change c)) = (tlen (dropna t) - 1)%nat).
Proof.
  cbv zeta. intros Hdl Hne Hlen Hc.
  assert (E : (tlen (dropna t) <? 50) = false) by (apply Nat.ltb_ge; lia).
  split.
  - unfold run, get_real_time_market_data. unfold_M.
    rewrite (fetch_yf_first_ok "^GSPC" period w (mk_st [] []) t Hdl Hne ltac:(lia)).
    cbv beta iota. rewrite E. unfold get_close. rewrite Hc. reflexivity.
  - intros Hpos. rewrite pct_change_positive by exact Hpos.
    rewrite (column_length _ _ _ Hc). reflexivity.
Qed.

Lemma market_data_primary_witness :
  run (get_real_time_market_data "1y") (download_world (close_table 0 (spiked_closes [])))
    = (Ok (sdropna (pct_change (default [] (column (dropna (close_table 0 (spiked_closes []))) "Close")))),
       mk_st [Download "^GSPC" (Range (0 - 365) 0)] []) /\
  (Forall (fun x => exists q, x = Num q /\ (0 < q)%Q)
          (default [] (column (dropna (close_table 0 (spiked_closes []))) "Close")) ->
   length (sdropna (pct_change (default [] (column (dropna (close_table 0 (spiked_closes []))) "Close"))))
   = (tlen (dropna (close_table 0 (spiked_closes []))) - 1)%nat).
Proof.
  apply (market_data_primary "1y" (download_world (close_table 0 (spiked_closes [])))
           (close_table 0 (spiked_closes []))).
  - reflexivity.
  - vm_compute. reflexivity.
  - apply Nat.leb_le. vm_compute. reflexivity.
  - vm_compute. reflexivity.
Defined.

(** ^GSPC data with 20 to 49 clean rows is not enough for
    [get_real_time_market_data]: it then falls back to VTI, whose data is
    used from 20 clean rows on; the requests are one ^GSPC download and one
    VTI download over the same window. *)
Theorem market_data_backup_threshold (period : string) (w : world) (t1 t2 : table)
    (c2 : list pyfloat) :
  let window := Range (w_now w - period_days period) (w_now w) in
  w_dl w [] "^GSPC" window = DLOk t1 -> tempty t1 = false ->
  (20 <= tlen (dropna t1) < 50)%nat ->
  w_dl w [Download "^GSPC" window] "VTI" window = DLOk t2 -> tempty t2 = false ->
  (20 <= tlen (dropna t2))%nat -> column (dropna t2) "Close" = Some c2 ->
  run (get_real_time_market_data period) w
    = (Ok (sdropna (pct_change c2)),
       mk_st [Download "^GSPC" window; Download "VTI" window] []).
Proof.
  cbv zeta. intros Hdl1 Hne1 Hlen1 Hdl2 Hne2 Hlen2 Hc.
  assert (E : (tlen (dropna t1) <? 50) = true) by (apply Nat.ltb_lt; lia).
  unfold run, get_real_time_market_data. unfold_M.
  rewrite (fetch_yf_first_ok "^GSPC" period w (mk_st [] []) t1 Hdl1 Hne1 ltac:(lia)).
  cbv beta iota. rewrite E. cbv beta iota.
  rewrite (fetch_yf_first_ok "VTI" period w
             (record_call (Download "^GSPC" (Range (w_now w - period_days period) (w_now w)))
                (mk_st [] [])) t2 Hdl2 Hne2 Hlen2).
  cbv beta iota. unfold get_close. rewrite Hc. reflexivity.
Qed.

Lemma market_data_backup_threshold_witness :
  run (get_real_time_market_data "1mo") short_index_world
    = (Ok (sdropna (pct_change (default [] (column (dropna (close_table 0 (repeat (inject_Z 2) 25))) "Close")))),
       mk_st [Download "^GSPC" (Range (0 - 30) 0); Download "VTI" (Range (0 - 30) 0)] []).
Proof.
  apply (market_data_backup_threshold "1mo" short_index_world
           (close_table 0 (repeat (inject_Z 1) 30)) (close_table 0 (repeat (inject_Z 2) 25))).
  - reflexivity.
  - vm_compute. reflexivity.
  - split; apply Nat.leb_le; vm_compute; reflexivity.
  - reflexivity.
  - vm_compute. reflexivity.
  - apply Nat.leb_le. vm_compute. reflexivity.
  - vm_compute. reflexivity.
Defined.

(** When every ^GSPC download raises [e1] and every VTI download raises
    [e2], [get_real_time_market_data] makes three attempts at each and
    raises the "All market data sources failed" error quoting both
    messages. *)
Theorem market_data_both_fail (period : string) (w : world) (e1 e2 : exn) :
  let window := Range (w_now w - period_days period) (w_now w) in
  (forall h win, w_dl w h "^GSPC" win = DLRaise e1) ->
  (forall h win, w_dl w h "VTI" win = DLRaise e2) ->
  run (get_real_time_market_data period) w
    = (Err (mk_exn PyException
              ("❌ CRITICAL: All market data sources failed. Primary: "
               ++ exc_msg e1 ++ ", Backup: " ++ exc_msg e2)%string),
       mk_st (repeat (Download "^GSPC" window) 3 ++ repeat (Download "VTI" window) 3) []).
Proof.
  cbv zeta. intros H1 H2.
  unfold run, get_real_time_market_data. unfold_M.
  rewrite (fetch_yf_all_fail "^GSPC" period w _ e1 H1). cbv beta iota.
  rewrite (fetch_yf_all_fail "VTI" period w _ e2 H2). reflexivity.
Qed.

Lemma market_data_both_fail_witness :
  run (get_real_time_market_data "1y") offline_world
    = (Err (mk_exn PyException
              ("❌ CRITICAL: All market data sources failed. Primary: "
               ++ exc_msg timeout_error ++ ", Backup: " ++ exc_msg timeout_error)%string),
       mk_st (repeat (Download "^GSPC" (Range (0 - 365) 0)) 3
              ++ repeat (Download "VTI" (Range (0 - 365) 0)) 3) []).
Proof.
  apply (market_data_both_fail "1y" offline_world timeout_error timeout_error);
    intros; reflexivity.
Defined.

(** ** The batch fetch, further *)

Lemma fetch_yf_ok (ticker period : string) (w : world) (s s' : st) (t : table) :
  _fetch_from_yfinance ticker period w s = (Ok t, s') -> (20 <= tlen t)%nat /\ null_count t = 0%nat.
Proof.
  intros H. destruct (fetch_yf_shape ticker period w s) as (k & _ & _ & Ho).
  apply Ho. rewrite H. reflexivity.
Qed.

Lemma fetch_one_ok (period : string) (validate : bool) (ticker : string)
    (accepted : gmap string table) (failed : list string) (w : world) (s : st) :
  exists r s', fetch_one period validate ticker (accepted, failed) w s = (Ok r, s') /\
    (r = (accepted, failed ++ [ticker]) \/
     exists data, (20 <= tlen data)%nat /\ null_count data = 0%nat /\
       (validate = true -> fst (_validate_data_quality (w_now w) (Some data) ticker) = true) /\
       r = (<[ticker := data]> accepted, failed)).
Proof.
  unfold fetch_one. unfold_M.
  destruct (_fetch_from_yfinance ticker period w s) as [[data|e] s1] eqn:E1;
    [|eexists _, _; split; [reflexivity|left; reflexivity]].
  pose proof (fetch_yf_ok _ _ _ _ _ _ E1) as [Hl Hn].
  pose proof (rejected_by_gate_value validate data ticker w s1) as H.
  destruct (rejected_by_gate validate data ticker w s1) as [[b|e] s2]; cbn [fst] in H; [|discriminate].
  injection H as Hb. destruct b.
  - eexists _, _. split; [reflexivity|left; reflexivity].
  - eexists _, _. split; [reflexivity|]. right. exists data.
    split; [exact Hl|]. split; [exact Hn|]. split; [|reflexivity].
    intros ->. destruct (fst (_validate_data_quality (w_now w) (Some data) ticker)) eqn:Ev; [reflexivity|].
    unfold _validate_data_quality in Ev. rewrite Ev in Hb. discriminate Hb.
Qed.

Lemma fetch_loop_ok (period : string) (validate : bool) (w : world) (K : list string) :
  forall (tickers : list string) (acc : gmap string table * list string) (s : st),
  (forall x, x ∈ tickers -> x ∈ K) ->
  (forall k t, acc.1 !! k = Some t ->
     k ∈ K /\ (20 <= tlen t)%nat /\ null_count t = 0%nat /\
     (validate = true -> fst (_validate_data_quality (w_now w) (Some t) k) = true)) ->
  exists r s', fetch_loop period validate tickers acc w s = (Ok r, s') /\
    (forall k t, r.1 !! k = Some t ->
       k ∈ K /\ (20 <= tlen t)%nat /\ null_count t = 0%nat /\
       (validate = true -> fst (_validate_data_quality (w_now w) (Some t) k) = true)).
Proof.
  induction tickers as [|x rest IH]; intros [accepted failed] s Hsub Hacc.
  - eexists _, _. split; [reflexivity|exact Hacc].
  - destruct (fetch_one_ok period validate x accepted failed w s) as (r1 & s1 & E1 & Hr1).
    cbn [fetch_loop]. unfold mbind, M_bind. rewrite E1.
    apply IH.
    + intros y Hy. apply Hsub. apply elem_of_cons. right. exact Hy.
    + destruct Hr1 as [-> | (data & Hl & Hn & Hv & ->)]; [exact Hacc|].
      intros k t Hk. simpl in Hk. apply lookup_insert_Some in Hk.
      destruct Hk as [[<- <-] | [_ Hk]]; [|apply Hacc, Hk].
      split; [apply Hsub, elem_of_cons; left; reflexivity|]. auto.
Qed.

Lemma fetch_entries (tickers : tickers_arg) (period : string) (validate : bool) (w : world) (s : st) :
  match fst (fetch_real_time_stock_data tickers period validate w s) with
  | Ok m => forall k t, m !! k = Some t ->
      k ∈ (match tickers with TStr x => [x] | TList l => l end) /\
      (20 <= tlen t)%nat /\ null_count t = 0%nat /\
      (validate = true -> fst (_validate_data_quality (w_now w) (Some t) k) = true)
  | Err e => e = no_data_error
  end.
Proof.
  set (l := match tickers with TStr x => [x] | TList l => l end).
  destruct (fetch_loop_ok period validate w l l (∅, []) s (fun x Hx => Hx))
    as ([accepted failed] & s1 & E & Hr).
  { intros k t Hk. simpl in Hk. rewrite lookup_empty in Hk. discriminate. }
  unfold fetch_real_time_stock_data. unfold_M. fold l. rewrite E. cbv beta iota.
  destruct (Nat.eqb (size accepted) 0); [reflexivity|].
  destruct failed; unfold say; cbv beta iota; exact Hr.
Qed.

(** [fetch_real_time_stock_data] raises nothing but "No data could be
    fetched for any ticker": a failure on one ticker, in its download or in
    its validation, never escapes. An empty ticker list raises that error
    at once, without any request. *)
Theorem fetch_only_raises_no_data (tickers : tickers_arg) (period : string) (validate : bool)
    (w : world) (s : st) :
  match fst (fetch_real_time_stock_data tickers period validate w s) with
  | Ok _ => True
  | Err e => e = no_data_error
  end /\
  fetch_real_time_stock_data (TList []) period validate w s = (Err no_data_error, s).
Proof.
  split; [|reflexivity].
  pose proof (fetch_entries tickers period validate w s) as H.
  destruct (fst (fetch_real_time_stock_data tickers period validate w s)); [exact I|exact H].
Qed.

(** Every entry of the mapping returned by [fetch_real_time_stock_data] is
    keyed by one of the requested tickers and holds a table of at least 20
    rows without missing cells; with [validate], the quality gate accepts
    it at the time of the call. *)
Theorem fetch_result_entries (tickers : list string) (period : string) (validate : bool)
    (w : world) (s : st) (m : gmap string table) :
  fst (fetch_real_time_stock_data (TList tickers) period validate w s) = Ok m ->
  forall k t, m !! k = Some t ->
    k ∈ tickers /\ (20 <= tlen t)%nat /\ null_count t = 0%nat /\
    (validate = true -> fst (_validate_data_quality (w_now w) (Some t) k) = true).
Proof.
  intros H. pose proof (fetch_entries (TList tickers) period validate w s) as He.
  rewrite H in He. exact He.
Qed.

Lemma fetch_result_entries_witness :
  fst (fetch_real_time_stock_data (TList ["AAA"; "BBB"; "CCC"]) "1y" true batch_world (mk_st [] []))
    = Ok batch_accepted /\
  ("AAA" ∈ ["AAA"; "BBB"; "CCC"]%string /\
   (20 <= tlen (dropna (close_table 0 (spiked_closes []))))%nat /\
   null_count (dropna (close_table 0 (spiked_closes []))) = 0%nat /\
   (true = true ->
    fst (_validate_data_quality (w_now batch_world) (Some (dropna (close_table 0 (spiked_closes [])))) "AAA")
    = true)).
Proof.
  assert (H : fst (fetch_real_time_stock_data (TList ["AAA"; "BBB"; "CCC"]) "1y" true batch_world
                     (mk_st [] [])) = Ok batch_accepted) by (vm_compute; reflexivity).
  split; [exact H|].
  apply (fetch_result_entries ["AAA"; "BBB"; "CCC"] "1y" true batch_world (mk_st [] []) batch_accepted H).
  vm_compute. reflexivity.
Defined.

Lemma foldl_batch_lookup (o : string -> option table) (l : list string) :
  forall (acc : gmap string table * list string) (k : string),
  (foldl (batch_step o) acc l).1 !! k
  = match o k with
    | Some d => if bool_decide (k ∈ l) then Some d else acc.1 !! k
    | None => acc.1 !! k
    end.
Proof.
  induction l as [|x l IH]; intros [m f] k.
  - cbn [foldl]. destruct (o k); [|reflexivity].
    rewrite bool_decide_false by apply not_elem_of_nil. reflexivity.
  - cbn [foldl]. rewrite IH. unfold batch_step.
    destruct (o x) as [dx|] eqn:Ox; cbn [fst];
      (destruct (decide (k = x)) as [->|Hkx];
       [rewrite Ox, ?lookup_insert_eq;
        rewrite ?(bool_decide_true (x ∈ x :: l)) by (apply elem_of_cons; left; reflexivity);
        destruct (bool_decide (x ∈ l)); reflexivity|]).
    all: rewrite ?lookup_insert_ne by congruence; destruct (o k); [|reflexivity].
    all: assert (Hb : bool_decide (k ∈ x :: l) = bool_decide (k ∈ l))
           by (apply bool_decide_ext; rewrite elem_of_cons; intuition congruence).
    all: rewrite Hb; reflexivity.
Qed.

Lemma fetch_of_loop (tickers : list string) (period : string) (validate : bool) (w : world) (s : st)
    (accepted : gmap string table) (failed : list string) (s1 : st) :
  fetch_loop period validate tickers (∅, []) w s = (Ok (accepted, failed), s1) ->
  fst (fetch_real_time_stock_data (TList tickers) period validate w s)
  = if Nat.eqb (size accepted) 0 then Err no_data_error else Ok accepted.
Proof.
  intros E. unfold fetch_real_time_stock_data. unfold_M. rewrite E. cbv beta iota.
  destruct (Nat.eqb (size accepted) 0); [reflexivity|].
  destruct failed; reflexivity.
Qed.

(** In a world whose answers do not depend on the calls made before,
    validation can only remove tickers from the result of
    [fetch_real_time_stock_data]: when the validated call returns a
    mapping, the unvalidated call returns one containing it, made of
    exactly the requested tickers whose fetch succeeds, with the fetched
    tables. *)
Theorem fetch_validation_only_removes (dl : string -> window -> dl_result)
    (fred : string -> nat -> fred_result) (now : Z) (tickers : list string) (period : string)
    (m1 : gmap string table) :
  let w := static_world dl fred now in
  fst (run (fetch_real_time_stock_data (TList tickers) period true) w) = Ok m1 ->
  exists m2, fst (run (fetch_real_time_stock_data (TList tickers) period false) w) = Ok m2 /\
    m1 ⊆ m2 /\
    (forall k t, m2 !! k = Some t <->
       k ∈ tickers /\ fst (run (_fetch_from_yfinance k period) w) = Ok t).
Proof.
  intros w H.
  pose proof (fetch_loop_static dl fred now period true tickers (∅, []) (mk_st [] [])) as L1.
  pose proof (fetch_loop_static dl fred now period false tickers (∅, []) (mk_st [] [])) as L2.
  fold w in L1, L2.
  assert (O2 : forall k, isolated_outcome w period false k
                         = match fst (run (_fetch_from_yfinance k period) w) with
                           | Ok d => Some d | Err _ => None end).
  { intros k. unfold isolated_outcome. destruct (fst (run (_fetch_from_yfinance k period) w)); reflexivity. }
  assert (O12 : forall k t, isolated_outcome w period true k = Some t ->
                            isolated_outcome w period false k = Some t).
  { intros k t. unfold isolated_outcome.
    destruct (fst (run (_fetch_from_yfinance k period) w)); [|discriminate].
    destruct (negb _); simpl; congruence. }
  unfold run in H |- *.
  destruct (fetch_loop period true tickers (∅, []) w (mk_st [] [])) as [[[a1 f1]|e] s1] eqn:E1;
    simpl in L1; [|discriminate].
  destruct (fetch_loop period false tickers (∅, []) w (mk_st [] [])) as [[[a2 f2]|e] s2] eqn:E2;
    simpl in L2; [|discriminate].
  injection L1 as La1. injection L2 as La2.
  rewrite (fetch_of_loop _ _ _ _ _ _ _ _ E1) in H.
  rewrite (fetch_of_loop _ _ _ _ _ _ _ _ E2).
  assert (Hlk1 : forall k, a1 !! k = if bool_decide (k ∈ tickers) then isolated_outcome w period true k else None).
  { intros k. change a1 with (a1, f1).1. rewrite La1, foldl_batch_lookup. simpl.
    destruct (isolated_outcome w period true k); [|destruct (bool_decide _)]; reflexivity. }
  assert (Hlk2 : forall k, a2 !! k = if bool_decide (k ∈ tickers) then isolated_outcome w period false k else None).
  { intros k. change a2 with (a2, f2).1. rewrite La2, foldl_batch_lookup. simpl.
    destruct (isolated_outcome w period false k); [|destruct (bool_decide _)]; reflexivity. }
  assert (Hsub : a1 ⊆ a2).
  { apply map_subseteq_spec. intros k t Hk. rewrite Hlk1 in Hk. rewrite Hlk2.
    case_bool_decide; [apply O12, Hk|discriminate]. }
  destruct (Nat.eqb (size a1) 0) eqn:Ez1; [discriminate|]. injection H as <-.
  assert (Ez2 : Nat.eqb (size a2) 0 = false).
  { apply Nat.eqb_neq in Ez1. apply Nat.eqb_neq.
    pose proof (map_subseteq_size _ _ Hsub). lia. }
  rewrite Ez2. exists a2. split; [reflexivity|]. split; [exact Hsub|].
  intros k t. rewrite Hlk2, O2. case_bool_decide as Hk.
  - change (fst (_fetch_from_yfinance k period w (mk_st [] []))) with (fst (run (_fetch_from_yfinance k period) w)).
    destruct (fst (run (_fetch_from_yfinance k period) w)).
    + split; [intros Ht; split; [exact Hk|congruence]|intros [_ Ht]; congruence].
    + split; [discriminate|intros [_ Ht]; discriminate Ht].
  - split; [discriminate|intros [Hk' _]; contradiction].
Qed.

Lemma fetch_validation_only_removes_witness :
  fst (run (fetch_real_time_stock_data (TList ["AAA"; "BBB"; "CCC"]) "1y" true) batch_world)
    = Ok batch_accepted /\
  exists m2, fst (run (fetch_real_time_stock_data (TList ["AAA"; "BBB"; "CCC"]) "1y" false) batch_world)
               = Ok m2 /\
    batch_accepted ⊆ m2 /\
    (forall k t, m2 !! k = Some t <->
       k ∈ ["AAA"; "BBB"; "CCC"]%string /\ fst (run (_fetch_from_yfinance k "1y") batch_world) = Ok t).
Proof.
  assert (H : fst (run (fetch_real_time_stock_data (TList ["AAA"; "BBB"; "CCC"]) "1y" true) batch_world)
              = Ok batch_accepted) by (vm_compute; reflexivity).
  split; [exact H|].
  exact (fetch_validation_only_removes
           (fun sym _ => if String.eqb sym "BBB" then DLOk (close_table 0 (repeat (inject_Z 1) 5))
                         else DLOk (close_table 0 (spiked_closes [])))
           (fun _ _ => FredRaise timeout_error) 99 ["AAA"; "BBB"; "CCC"] "1y" batch_accepted H).
Defined.


(** ** The quality gate, further *)

Lemma existsb_false_Forall {A} (f : A -> bool) (l : list A) :
  existsb f l = false -> Forall (fun x => f x = false) l.
Proof.
  induction l as [|x l IH]; simpl; [constructor|].
  intros H. apply orb_false_iff in H as [Hx Hl]. constructor; [exact Hx|apply IH, Hl].
Qed.

Lemma tempty_false (t : table) : tempty t = false -> t_rows t <> [] /\ t_cols t <> [].
Proof.
  unfold tempty. destruct (t_rows t), (t_cols t); simpl; try discriminate.
  intros _. split; discriminate.
Qed.

Lemma close_checks_not_validated (t : table) (ticker : string) (m : gate_msg) :
  close_checks t ticker = Some m -> m <> GValidated ticker.
Proof.
  unfold close_checks. destruct (column t "Close"); [|discriminate].
  cbv zeta. repeat match goal with |- context [if ?b then _ else _] => destruct b end;
    intros H; first [discriminate H | injection H as <-; discriminate].
Qed.

(** What acceptance by [_validate_data_quality] guarantees: a table with
    rows and columns, at least 20 rows, at most 10% of its cells missing,
    and, when it has a Close column, at least one valid close, every valid
    close positive, and at most 2% of the day-to-day returns of more than
    50% in size. *)
Theorem gate_accepts_only_sound_tables (now : Z) (data : table) (ticker : string) :
  fst (_validate_data_quality now (Some data) ticker) = true ->
  t_rows data <> [] /\ t_cols data <> [] /\ (20 <= tlen data)%nat /\
  (missing_pct data <= 1#10)%Q /\
  forall c, column data "Close" = Some c ->
    sdropna c <> [] /\ Forall (fun x => le0 x = false) (sdropna c) /\
    (Qnat (length (filter abs_gt_half (sdropna (pct_change (sdropna c)))))
       <= Qnat (length (sdropna (pct_change (sdropna c)))) * (2#100))%Q.
Proof.
  unfold _validate_data_quality.
  destruct (tempty data) eqn:Et; [discriminate|].
  destruct (tlen data <? 20) eqn:El; [discriminate|].
  destruct (Qlt_bool (1#10) (missing_pct data)) eqn:Em; [discriminate|].
  destruct (close_checks data ticker) eqn:Ec; [discriminate|]. intros _.
  destruct (tempty_false data Et) as [Hr Hc].
  split; [exact Hr|]. split; [exact Hc|].
  split; [apply Nat.ltb_ge, El|]. split; [apply Qlt_bool_false_iff, Em|].
  intros c Hcol. unfold close_checks in Ec. rewrite Hcol in Ec. cbv zeta in Ec.
  destruct (length (sdropna c) =? 0) eqn:E0; [discriminate|].
  destruct (existsb le0 (sdropna c)) eqn:E1; [discriminate|].
  destruct (Qlt_bool _ _) eqn:E2 in Ec; [discriminate|].
  split; [intros Hn; rewrite Hn in E0; discriminate|].
  split; [apply existsb_false_Forall, E1|].
  apply Qlt_bool_false_iff, E2.
Qed.

Lemma gate_accepts_only_sound_tables_witness :
  fst (_validate_data_quality 99 (Some (close_table 0 (spiked_closes []))) "AAA") = true /\
  let data := close_table 0 (spiked_closes []) in
  t_rows data <> [] /\ t_cols data <> [] /\ (20 <= tlen data)%nat /\
  (missing_pct data <= 1#10)%Q /\
  forall c, column data "Close" = Some c ->
    sdropna c <> [] /\ Forall (fun x => le0 x = false) (sdropna c) /\
    (Qnat (length (filter abs_gt_half (sdropna (pct_change (sdropna c)))))
       <= Qnat (length (sdropna (pct_change (sdropna c)))) * (2#100))%Q.
Proof.
  assert (H : fst (_validate_data_quality 99 (Some (close_table 0 (spiked_closes []))) "AAA") = true)
    by (vm_compute; reflexivity).
  split; [exact H|].
  exact (gate_accepts_only_sound_tables 99 (close_table 0 (spiked_closes [])) "AAA" H).
Defined.

(** Without a Close column, [_validate_data_quality] checks the shape of
    the table only: it accepts exactly the tables with rows and columns, at
    least 20 rows and at most 10% of missing cells, whatever their prices. *)
Theorem gate_without_close_column (now : Z) (data : table) (ticker : string) :
  col_pos "Close" (t_cols data) = None ->
  (fst (_validate_data_quality now (Some data) ticker) = true <->
   tempty data = false /\ (20 <= tlen data)%nat /\ (missing_pct data <= 1#10)%Q).
Proof.
  intros Hc.
  assert (Ecc : close_checks data ticker = None)
    by (unfold close_checks, column; rewrite Hc; reflexivity).
  unfold _validate_data_quality. rewrite Ecc.
  destruct (tempty data) eqn:Et; cbn [fst].
  { split; [discriminate|intros [H _]; discriminate H]. }
  destruct (tlen data <? 20) eqn:El; cbn [fst].
  { split; [discriminate|]. intros (_ & H & _). apply Nat.ltb_lt in El. lia. }
  destruct (Qlt_bool (1#10) (missing_pct data)) eqn:Em; cbn [fst].
  { split; [discriminate|]. intros (_ & _ & H). apply Qlt_bool_iff in Em.
    exfalso. exact (Qlt_not_le _ _ Em H). }
  split; [intros _|intros _; reflexivity].
  split; [reflexivity|]. split; [apply Nat.ltb_ge, El|apply Qlt_bool_false_iff, Em].
Qed.

Lemma gate_without_close_column_witness :
  col_pos "Close" (t_cols open_only_table) = None /\
  fst (_validate_data_quality 30 (Some open_only_table) "AAA") = true.
Proof.
  split; [reflexivity|].
  apply (gate_without_close_column 30 open_only_table "AAA"); [reflexivity|].
  split; [vm_compute; reflexivity|]. split.
  - apply Nat.leb_le. vm_compute. reflexivity.
  - apply Qle_bool_iff. vm_compute. reflexivity.
Defined.

(** The diagnostics of [_validate_data_quality]: a rejection prints exactly
    one message, never the validated one; an acceptance prints the
    staleness warning when the last row is more than 10 days old, then the
    validated message. *)
Theorem gate_diagnostics (now : Z) (data : option table) (ticker : string) :
  (fst (_validate_data_quality now data ticker) = false ->
     exists m, snd (_validate_data_quality now data ticker) = [m] /\ m <> GValidated ticker) /\
  (fst (_validate_data_quality now data ticker) = true ->
     exists t d, data = Some t /\ last_index t = Some d /\
       snd (_validate_data_quality now data ticker)
       = (if Z.gtb (now - d) 10 then [GStale ticker (now - d)] else []) ++ [GValidated ticker]).
Proof.
  destruct data as [t|]; unfold _validate_data_quality.
  2: { split; [intros _; eexists; split; [reflexivity|discriminate]|discriminate]. }
  destruct (tempty t) eqn:Et; cbn [fst snd].
  { split; [intros _; eexists; split; [reflexivity|discriminate]|discriminate]. }
  destruct (tlen t <? 20); cbn [fst snd].
  { split; [intros _; eexists; split; [reflexivity|discriminate]|discriminate]. }
  destruct (Qlt_bool (1#10) (missing_pct t)); cbn [fst snd].
  { split; [intros _; eexists; split; [reflexivity|discriminate]|discriminate]. }
  destruct (close_checks t ticker) as [m|] eqn:Ec; cbn [fst snd].
  { split; [intros _; exists m; split; [reflexivity|apply (close_checks_not_validated t), Ec]
           |discriminate]. }
  split; [discriminate|intros _].
  destruct (tempty_false t Et) as [Hr _].
  unfold last_index. destruct (last (t_rows t)) as [r|] eqn:Hl.
  - exists t, r.1. split; [reflexivity|]. rewrite Hl. split; reflexivity.
  - apply last_None in Hl. contradiction.
Qed.

(** ** The health check, further *)

Lemma sample_entry (m : gmap string table) (k : string) :
  (forall t, m !! k = Some t -> (20 <= tlen t)%nat) ->
  let status := match m !! k with
                | Some d => if Nat.ltb 15 (tlen d) then "HEALTHY ✅" else "LIMITED DATA ⚠️"
                | None => "FAILED ❌"
                end%string in
  status = "HEALTHY ✅"%string \/ status = "FAILED ❌"%string.
Proof.
  intros H. cbv zeta. destruct (m !! k) as [d|]; [|right; reflexivity].
  left. specialize (H d eq_refl). destruct (Nat.ltb_spec 15 (tlen d)); [reflexivity|lia].
Qed.

(** In the report of [system_health_check], the sample-quality section
    either lists AAPL, MSFT and GOOGL in that order, each HEALTHY or FAILED
    and never LIMITED DATA (the fetch keeps only tables of at least 20
    rows), or carries the "No data could be fetched" error; the rate
    section is either a rate or the exhausted-sources error, and without a
    FRED key a rate is a positive number. *)
Theorem health_sample_and_rate_entries (self : pipeline) (w : world) :
  exists (rep : health_report) (s' : st),
    run (system_health_check self) w = (Ok rep, s') /\
    match sample_data_quality rep with
    | SampleOk q =>
        map fst q = sample_tickers /\
        Forall (fun kv => kv.2 = "HEALTHY ✅"%string \/ kv.2 = "FAILED ❌"%string) q
    | SampleErr e => e = no_data_error
    end /\
    match risk_free_rate rep with
    | RateOk r => truthy (fred_api_key self) = false -> gt0 r = true /\ is_nan r = false
    | RateErr e => e = rfr_exhausted
    end.
Proof.
  unfold run, system_health_check. unfold_M.
  destruct (truthy (fred_api_key self)) eqn:Hk; cbv beta iota;
  repeat match goal with
  | |- context [match get_real_time_risk_free_rate self w ?s with (_, _) => _ end] =>
      let H := fresh "Hrate" in
      destruct (rate_shape self w s) as (? & _ & _ & _ & H);
      destruct (get_real_time_risk_free_rate self w s) as [[?|?] ?]; cbn [fst] in H; cbv beta iota
  | |- context [match fetch_real_time_stock_data ?a ?b ?c w ?s with (_, _) => _ end] =>
      let H := fresh "Hfetch" in
      pose proof (fetch_entries a b c w s) as H;
      destruct (fetch_real_time_stock_data a b c w s) as [[?|?] ?]; cbn [fst] in H; cbv beta iota
  | |- context [match ?m w ?s with (_, _) => _ end] =>
      let r := fresh "r" in let s' := fresh "s" in
      destruct (m w s) as [r s']; destruct r; cbv beta iota
  end.
  all: eexists _, _; split; [reflexivity|]; cbn [sample_data_quality risk_free_rate].
  all: split; [|first [assumption | intros Hf; discriminate Hf
                      | intros _; match goal with H : truthy _ = false -> _ |- _ => apply H, Hk end]].
  all: try assumption.
  all: split; [reflexivity|].
  all: cbn [map sample_tickers]; rewrite !Forall_cons, Forall_nil; split_and!; [..|exact I].
  all: apply sample_entry; intros t Ht; apply (Hfetch _ _ Ht).
Qed.

(** ** Portfolio returns *)

Lemma fsum_Num_from (qs : list Q) :
  forall a, fold_left fadd (map Num qs) (Num a) = Num (fold_left Qplus qs a).
Proof. induction qs as [|q qs IH]; intros a; simpl; [reflexivity|apply IH]. Qed.

Lemma fsum_Num (qs : list Q) : fsum (map Num qs) = Num (fold_left Qplus qs 0%Q).
Proof. apply fsum_Num_from. Qed.

(** The weight checks of [calculate_portfolio_returns], for weights that
    are numbers: a count different from the number of tickers raises the
    length error; otherwise a sum more than 1e-6 away from 1 raises the sum
    error, and a sum within 1e-6 of 1 lets the computation go on. *)
Theorem portfolio_weight_checks (float_repr : pyfloat -> string)
    (price_data : list (string * table)) (qs : list Q) (w : world) (s : st) :
  (length qs <> length price_data ->
     calculate_portfolio_returns float_repr price_data (Some (map Num qs)) w s
     = (Err (value_error ("Weights length (" ++ pretty (length qs)
                            ++ ") doesn't match tickers (" ++ pretty (length price_data) ++ ")")),
        s)) /\
  (length qs = length price_data -> (1#1000000 < Qabs (fold_left Qplus qs 0%Q - 1))%Q ->
     calculate_portfolio_returns float_repr price_data (Some (map Num qs)) w s
     = (Err (value_error ("Weights don't sum to 1.0: "
                            ++ match qs with [] => "0" | _ => float_repr (Num (fold_left Qplus qs 0%Q)) end)),
        s)) /\
  (length qs = length price_data -> (Qabs (fold_left Qplus qs 0%Q - 1) <= 1#1000000)%Q ->
     calculate_portfolio_returns float_repr price_data (Some (map Num qs))
     = portfolio_of price_data (map Num qs)).
Proof.
  unfold calculate_portfolio_returns. cbv zeta. rewrite !length_map, fsum_Num.
  cbn [fsub1 fabs fgt].
  split; [|split].
  - intros Hne. destruct (Nat.eqb_spec (length qs) (length price_data)); [contradiction|reflexivity].
  - intros Heq Hgt. rewrite Heq, Nat.eqb_refl. cbn [negb].
    apply Qlt_bool_iff in Hgt. rewrite Hgt. destruct qs; reflexivity.
  - intros Heq Hle. rewrite Heq, Nat.eqb_refl. cbn [negb].
    apply Qlt_bool_false_iff in Hle. rewrite Hle. reflexivity.
Qed.

Lemma fold_Qplus_repeat (x : Q) (n : nat) :
  forall a, (fold_left Qplus (repeat x n) a == a + Qnat n * x)%Q.
Proof.
  induction n as [|n IH]; intros a; simpl.
  - unfold Qnat. simpl. ring.
  - rewrite IH. unfold Qnat. rewrite Nat2Z.inj_succ, <- Z.add_1_r, inject_Z_plus. ring.
Qed.

Lemma equal_weights_pass (float_repr : pyfloat -> string) (price_data : list (string * table)) :
  price_data <> [] ->
  calculate_portfolio_returns float_repr price_data None
  = portfolio_of price_data (equal_weights (length price_data)).
Proof.
  intros Hne. unfold calculate_portfolio_returns. cbv zeta. rewrite length_map.
  unfold equal_weights. rewrite repeat_length, Nat.eqb_refl. cbn [negb].
  assert (Hn : ~ (Qnat (length price_data) == 0)%Q).
  { unfold Qnat. intros H. apply Hne. apply length_zero_iff_nil.
    change 0%Q with (inject_Z 0) in H. rewrite inject_Z_injective in H. lia. }
  assert (Hd : fdiv (Num 1) (Num (Qnat (length price_data)))
               = Num (1 / Qnat (length price_data))).
  { unfold fdiv. destruct (Qeq_bool (Qnat (length price_data)) 0) eqn:E; [|reflexivity].
    apply Qeq_bool_eq in E. contradiction. }
  rewrite Hd, <- map_repeat, fsum_Num. cbn [fsub1 fabs fgt].
  assert (Hz : (Qabs (fold_left Qplus (repeat (1 / Qnat (length price_data)) (length price_data)) 0%Q - 1)
                <= 1#1000000)%Q).
  { assert (Hs : (fold_left Qplus (repeat (1 / Qnat (length price_data)) (length price_data)) 0%Q - 1
                   == 0)%Q).
    { rewrite fold_Qplus_repeat. field. exact Hn. }
    rewrite (Qabs_wd _ _ Hs). apply Qle_bool_iff. reflexivity. }
  apply Qlt_bool_false_iff in Hz. rewrite Hz. reflexivity.
Qed.

(** With the default weights, [calculate_portfolio_returns] gives every
    ticker the weight 1/n and passes both weight checks, for any number
    n > 0 of tickers. With no ticker at all it raises "Weights don't sum to
    1.0: 0", and so do explicit weights [[]]. *)
Theorem portfolio_default_weights (float_repr : pyfloat -> string)
    (price_data : list (string * table)) :
  (price_data <> [] ->
     calculate_portfolio_returns float_repr price_data None
     = portfolio_of price_data (repeat (Num (1 / Qnat (length price_data))) (length price_data))) /\
  calculate_portfolio_returns float_repr [] None = raise (value_error "Weights don't sum to 1.0: 0") /\
  calculate_portfolio_returns float_repr [] (Some []) = raise (value_error "Weights don't sum to 1.0: 0").
Proof.
  split; [|split; reflexivity].
  intros Hne. rewrite (equal_weights_pass float_repr price_data Hne). unfold equal_weights.
  f_equal. f_equal. unfold fdiv.
  assert (Hn : Qeq_bool (Qnat (length price_data)) 0 = false).
  { destruct (Qeq_bool (Qnat (length price_data)) 0) eqn:E; [|reflexivity].
    apply Qeq_bool_eq in E. unfold Qnat in E. exfalso. apply Hne. apply length_zero_iff_nil.
    change 0%Q with (inject_Z 0) in E. rewrite inject_Z_injective in E. lia. }
  rewrite Hn. reflexivity.
Qed.

Lemma dropna_no_nan (t : table) :
  Forall (fun r => existsb is_nan r.2 = false) (t_rows (dropna t)).
Proof.
  apply Forall_forall. intros r Hr. unfold dropna in Hr. cbn [t_rows] in Hr.
  apply list_elem_of_filter in Hr as [Hp _].
  destruct (existsb is_nan r.2); [destruct Hp|reflexivity].
Qed.

Lemma map_lookup {A B} (f : A -> B) (l : list A) (i : nat) :
  map f l !! i = f <$> l !! i.
Proof. revert i. induction l as [|a l IH]; intros [|i]; simpl; auto. Qed.

(** Column [k] of [f] holds values of the series [sr]: each value that is
    not NaN sits at the row whose label is its date in [sr]. *)
Definition column_from (f : frame) (k : string) (sr : list (Z * pyfloat)) : Prop :=
  exists c, (k, c) ∈ f_cols f /\
    forall i d x, f_index f !! i = Some d -> c !! i = Some x -> is_nan x = false -> (d, x) ∈ sr.

Definition columns_from (f : frame) (done : list (string * table)) : Prop :=
  forall k t sr, (k, t) ∈ done -> price_column t = Some sr -> column_from f k sr.

Lemma set_column_other (cols : list (string * list pyfloat)) (name k : string)
    (v c : list pyfloat) :
  (k, c) ∈ cols -> k <> name -> (k, c) ∈ set_column cols name v.
Proof.
  intros Hin Hne. unfold set_column. destruct (existsb _ _).
  - apply list_elem_of_In, in_map_iff. exists (k, c). split; [|apply list_elem_of_In, Hin].
    cbn [fst]. destruct (String.eqb k name) eqn:E; [apply String.eqb_eq in E; congruence|reflexivity].
  - apply list_elem_of_In, in_or_app. left. apply list_elem_of_In, Hin.
Qed.

Lemma set_column_self (cols : list (string * list pyfloat)) (name : string) (v : list pyfloat) :
  (name, v) ∈ set_column cols name v.
Proof.
  unfold set_column. destruct (existsb _ _) eqn:E.
  - apply existsb_exists in E as [c [Hc Hn]]. apply list_elem_of_In, in_map_iff.
    exists c. rewrite Hn. split; [reflexivity|exact Hc].
  - apply list_elem_of_In, in_or_app. right. left. reflexivity.
Qed.

Lemma column_from_set_other (index : list Z) (cols : list (string * list pyfloat))
    (name k : string) (v : list pyfloat) (sr : list (Z * pyfloat)) :
  k <> name -> column_from (mk_frame index cols) k sr ->
  column_from (mk_frame index (set_column cols name v)) k sr.
Proof.
  intros Hne [c [Hc Hv]]. exists c. split; [apply set_column_other; assumption|exact Hv].
Qed.

(** pandas' [_ensure_valid_index] keeps the property: the columns it fills
    with NaN have no value to account for. *)
Lemma ensure_index_columns_from (f : frame) (s : list (Z * pyfloat)) (done : list (string * table)) :
  columns_from f done ->
  columns_from (match f_index f, s with
                | [], _ :: _ => mk_frame (map fst s) (map (fun c => (c.1, map (fun _ => NaN) s)) (f_cols f))
                | _, _ => f
                end) done.
Proof.
  intros Hf. destruct (f_index f) eqn:Ei; [|exact Hf]. destruct s as [|p s]; [exact Hf|].
  intros k t sr Hkt Hp. destruct (Hf k t sr Hkt Hp) as [c [Hc _]].
  exists (map (fun _ => NaN) (p :: s)). split.
  - apply list_elem_of_In, in_map_iff. exists (k, c). split; [reflexivity|apply list_elem_of_In, Hc].
  - intros i d x _ Hx Hn. rewrite map_lookup in Hx. apply fmap_Some in Hx as [? [_ ->]].
    discriminate Hn.
Qed.

Lemma lookup_date_in (s : list (Z * pyfloat)) (d : Z) :
  is_nan (lookup_date s d) = false -> (d, lookup_date s d) ∈ s.
Proof.
  unfold lookup_date. destruct (List.find _ s) as [p|] eqn:E; [|discriminate].
  intros _. apply find_some in E as [Hin Hd]. apply Z.eqb_eq in Hd.
  destruct p as [d' x]. cbn in *. subst d'. apply list_elem_of_In, Hin.
Qed.

(** [all_prices[ticker] = s] stores the ticker's own values, on their own
    dates, and leaves the other tickers' columns accounted for. *)
Lemma frame_setitem_columns_from (f f' : frame) (name : string) (t : table)
    (sr : list (Z * pyfloat)) (done : list (string * table)) (w : world) (s s' : st) :
  price_column t = Some sr -> name ∉ map fst done -> columns_from f done ->
  frame_setitem f name sr w s = (Ok f', s') -> columns_from f' (done ++ [(name, t)]).
Proof.
  intros Ht Hfresh Hf H. unfold frame_setitem in H. cbv zeta in H.
  pose proof (ensure_index_columns_from f sr done Hf) as Hf0.
  revert Hf0 H.
  generalize (match f_index f, sr with
              | [], _ :: _ => mk_frame (map fst sr) (map (fun c => (c.1, map (fun _ => NaN) sr)) (f_cols f))
              | _, _ => f
              end) as f0.
  intros f0 Hf0 H.
  assert (Hother : forall v, columns_from (mk_frame (f_index f0) (set_column (f_cols f0) name v)) done).
  { intros v k t' sr' Hkt Hp. apply column_from_set_other.
    - intros ->. apply Hfresh, list_elem_of_In, in_map_iff. exists (name, t').
      split; [reflexivity|apply list_elem_of_In, Hkt].
    - destruct (Hf0 k t' sr' Hkt Hp) as [c Hc]. exists c. destruct f0. exact Hc. }
  destruct (bool_decide (map fst sr = f_index f0) || Nat.eqb (length (f_index f0)) 0) eqn:Ealign.
  - injection H as <- _. intros k t' sr' Hkt Hp.
    apply list_elem_of_In, in_app_or in Hkt as [Hkt|Hkt]; [apply (Hother _ k t'); [apply list_elem_of_In, Hkt|exact Hp]|].
    destruct Hkt as [Hkt|[]]. injection Hkt as <- <-. rewrite Ht in Hp. injection Hp as <-.
    exists (map snd sr). split; [apply set_column_self|]. cbn [f_index].
    intros i d x Hd Hx _. apply orb_true_iff in Ealign as [Ealign|Ealign].
    + apply bool_decide_eq_true in Ealign. rewrite <- Ealign, map_lookup in Hd.
      rewrite map_lookup in Hx.
      apply fmap_Some in Hd as [p [Hp Hd]]. rewrite Hp in Hx. injection Hx as Hx.
      subst d x. destruct p. apply list_elem_of_lookup_2 with i. exact Hp.
    + apply Nat.eqb_eq, length_zero_iff_nil in Ealign. rewrite Ealign in Hd. discriminate Hd.
  - destruct (bool_decide (NoDup (map fst sr))); [|discriminate H].
    injection H as <- _. intros k t' sr' Hkt Hp.
    apply list_elem_of_In, in_app_or in Hkt as [Hkt|Hkt]; [apply (Hother _ k t'); [apply list_elem_of_In, Hkt|exact Hp]|].
    destruct Hkt as [Hkt|[]]. injection Hkt as <- <-. rewrite Ht in Hp. injection Hp as <-.
    exists (map (lookup_date sr) (f_index f0)). split; [apply set_column_self|]. cbn [f_index].
    intros i d x Hd Hx Hn. rewrite map_lookup, Hd in Hx. injection Hx as <-.
    apply lookup_date_in, Hn.
Qed.

(** The loop over the tickers: with distinct tickers, every ticker's column
    holds its own values on their own dates. *)
Lemma align_prices_columns_from (pd done : list (string * table)) :
  forall (f f' : frame) (w : world) (s s' : st),
  NoDup (map fst done ++ map fst pd) -> columns_from f done ->
  align_prices pd f w s = (Ok f', s') -> columns_from f' (done ++ pd).
Proof.
  revert done. induction pd as [|[ticker t] rest IH]; intros done f f' w s s' Hnd Hf H.
  - cbn in H. injection H as <- _. rewrite app_nil_r. exact Hf.
  - cbn [align_prices] in H. unfold mbind, M_bind in H.
    destruct (price_column t) as [sr|] eqn:Ht; [|discriminate H].
    cbn [mret M_ret] in H.
    destruct (frame_setitem f ticker sr w s) as [[f1|e] s1] eqn:Hset; [|discriminate H].
    replace (done ++ (ticker, t) :: rest) with ((done ++ [(ticker, t)]) ++ rest)
      by (rewrite <- app_assoc; reflexivity).
    apply (IH _ f1 f' w s1 s'); [| |exact H].
    + rewrite map_app, <- app_assoc. exact Hnd.
    + apply (frame_setitem_columns_from f f1 ticker t sr done w s s1 Ht); [|exact Hf|exact Hset].
      cbn [map] in Hnd. apply NoDup_app in Hnd as [_ [Hnd _]].
      intros Hin. apply (Hnd ticker Hin). left.
Qed.

Lemma zip_with_dates (g : Z * list pyfloat -> Z * list pyfloat -> list pyfloat)
    (l1 l2 : list (Z * list pyfloat)) :
  length l2 <= length l1 ->
  map fst (zip_with (fun prev cur => (cur.1, g prev cur)) l1 l2) = map fst l2.
Proof.
  revert l1. induction l2 as [|r l2 IH]; intros [|r1 l1] Hl; cbn in *; [reflexivity..|lia|].
  f_equal. apply IH. lia.
Qed.

Lemma pct_change_dates (t : table) : map fst (t_rows (frame_pct_change t)) = map fst (t_rows t).
Proof.
  unfold frame_pct_change. cbn [t_rows]. destruct (t_rows t) as [|r rest]; [reflexivity|].
  cbn [map]. f_equal. apply zip_with_dates. cbn. lia.
Qed.

Lemma dropna_dates (t : table) (d : Z) :
  d ∈ map fst (t_rows (dropna t)) -> d ∈ map fst (t_rows t).
Proof.
  unfold dropna. cbn [t_rows]. rewrite !list_elem_of_In, !in_map_iff.
  intros [r [<- Hr]]. exists r. split; [reflexivity|].
  apply list_elem_of_In in Hr. apply list_elem_of_In. apply list_elem_of_filter in Hr. apply Hr.
Qed.

(** A row of [all_prices.dropna()] is a row of the frame with no NaN. *)
Lemma complete_row (f : frame) (d : Z) :
  d ∈ map fst (t_rows (dropna (frame_table f))) ->
  exists i, f_index f !! i = Some d /\
    forall k c, (k, c) ∈ f_cols f -> exists x, c !! i = Some x /\ is_nan x = false.
Proof.
  unfold dropna. cbn [t_rows]. rewrite list_elem_of_In, in_map_iff.
  intros [r [<- Hr]]. apply list_elem_of_In, list_elem_of_filter in Hr as [Hn Hr].
  unfold frame_table in Hr. cbn [t_rows] in Hr.
  apply list_elem_of_lookup in Hr as [i Hi]. rewrite list_lookup_imap in Hi.
  apply fmap_Some in Hi as [d [Hd ->]]. exists i. split; [exact Hd|].
  intros k c Hc. cbn [snd] in Hn.
  destruct (existsb is_nan _) eqn:E; [destruct Hn|]. clear Hn.
  destruct (c !! i) as [x|] eqn:Ex.
  - exists x. split; [reflexivity|].
    destruct (is_nan x) eqn:Ex'; [|reflexivity]. rewrite <- E. symmetry.
    apply existsb_exists. exists x. split; [|exact Ex'].
    apply in_map_iff. exists (k, c). cbn [snd]. rewrite Ex. split; [reflexivity|].
    apply list_elem_of_In, Hc.
  - exfalso. assert (Hx : existsb is_nan (map (fun c => default NaN (c.2 !! i)) (f_cols f)) = true).
    { apply existsb_exists. exists NaN. split; [|reflexivity].
      apply in_map_iff. exists (k, c). cbn [snd]. rewrite Ex. split; [reflexivity|].
      apply list_elem_of_In, Hc. }
    rewrite Hx in E. discriminate E.
Qed.

(** Every date of the portfolio series, when
    [calculate_portfolio_returns] succeeds on distinct tickers, is a date
    on which every ticker's price series (its Close column, or its first
    column) has a value that is not NaN: the alignment keeps each price on
    its own date, through pandas' index alignment, and the dropna keeps
    only dates that every ticker has. *)
Theorem portfolio_dates_have_all_prices (float_repr : pyfloat -> string)
    (price_data : list (string * table)) (weights : option (list pyfloat))
    (w : world) (s s' : st) (returns : table) (port : list (Z * pyfloat)) :
  NoDup (map fst price_data) ->
  calculate_portfolio_returns float_repr price_data weights w s = (Ok (returns, port), s') ->
  forall d, d ∈ map fst port ->
  forall k t sr, (k, t) ∈ price_data -> price_column t = Some sr ->
  exists x, (d, x) ∈ sr /\ is_nan x = false.
Proof.
  intros Hnd H d Hd k t sr Hkt Hp.
  unfold calculate_portfolio_returns in H. cbv zeta in H.
  destruct (negb _); [discriminate H|]. destruct (fgt _ _); [discriminate H|].
  unfold portfolio_of in H. unfold mbind, M_bind in H.
  destruct (align_prices price_data (mk_frame [] []) w s) as [[f|e] s1] eqn:Ha; [|discriminate H].
  cbv zeta in H. destruct (_ <? 20); [discriminate H|].
  unfold weighted_sum in H. destruct (negb _); [discriminate H|].
  cbn [mret M_ret] in H. injection H as <- <- _.
  rewrite map_map in Hd. cbn [fst] in Hd.
  change (d ∈ map fst (t_rows (dropna (frame_pct_change (dropna (frame_table f)))))) in Hd.
  apply dropna_dates in Hd. rewrite pct_change_dates in Hd.
  apply complete_row in Hd as [i [Hi Hrow]].
  assert (Hcols : columns_from f ([] ++ price_data)).
  { apply (align_prices_columns_from price_data [] (mk_frame [] []) f w s s1); [exact Hnd| |exact Ha].
    intros ? ? ? Hin. inversion Hin. }
  destruct (Hcols k t sr Hkt Hp) as [c [Hc Hv]].
  destruct (Hrow k c Hc) as [x [Hx Hn]]. exists x. split; [|exact Hn].
  apply (Hv i d x Hi Hx Hn).
Qed.

Lemma portfolio_dates_have_all_prices_witness :
  exists x, (50%Z, x) ∈ series_at (close_table 10 (spiked_closes [])) 0 /\ is_nan x = false.
Proof.
  destruct (calculate_portfolio_returns (fun _ => ""%string) shifted_prices (Some half_weights)
              offline_world (mk_st [] [])) as [[[returns port]|e] s'] eqn:E.
  - pose proof E as E'. vm_compute in E'. injection E' as Hr Hport Hs.
    refine (portfolio_dates_have_all_prices (fun _ => ""%string) shifted_prices (Some half_weights)
              offline_world (mk_st [] []) s' returns port _ E 50%Z _
              "BBB"%string (close_table 10 (spiked_closes [])) _ _ _).
    + apply (bool_decide_unpack _). vm_compute. exact I.
    + rewrite <- Hport. apply (bool_decide_unpack _). vm_compute. exact I.
    + apply list_elem_of_In. right. left. reflexivity.
    + vm_compute. reflexivity.
  - vm_compute in E. discriminate E.
Defined.

Lemma imap_columns {X} (h : Z -> option pyfloat -> X) (l : list (Z * pyfloat)) :
  imap (fun i d => h d (map snd l !! i)) (map fst l) = map (fun p => h p.1 (Some p.2)) l.
Proof.
  revert h. induction l as [|p l IH]; intros h; [reflexivity|].
  cbn [map]. rewrite imap_cons. f_equal. apply (IH h).
Qed.

Lemma dropna_single_column_length (l : list (Z * pyfloat)) :
  length (filter (fun r : Z * list pyfloat => negb (existsb is_nan r.2))
                 (map (fun p => (p.1, [p.2])) l))
  = length (sdropna (map snd l)).
Proof.
  unfold sdropna. induction l as [|[d x] l IH]; [reflexivity|].
  cbn [map]. destruct (is_nan x) eqn:Ex.
  - rewrite !filter_cons_False; [exact IH| |]; simpl; rewrite Ex; simpl; auto.
  - rewrite !filter_cons_True; [cbn [length]; f_equal; exact IH| |]; simpl; rewrite Ex; exact I.
Qed.

Lemma align_single (k : string) (t : table) (sr : list (Z * pyfloat)) (w : world) (s : st) :
  price_column t = Some sr ->
  align_prices [(k, t)] (mk_frame [] []) w s = (Ok (mk_frame (map fst sr) [(k, map snd sr)]), s).
Proof.
  intros Hp. cbn [align_prices]. unfold_M. rewrite Hp. cbv beta iota.
  unfold frame_setitem. destruct sr as [|p sr']; [reflexivity|].
  cbn -[bool_decide]. rewrite bool_decide_true by reflexivity. reflexivity.
Qed.

(** A portfolio of a single ticker whose price series has fewer than 20
    values that are not missing raises "Insufficient aligned data", with
    that count of observations, whatever its dates. *)
Theorem portfolio_single_ticker_insufficient (float_repr : pyfloat -> string) (k : string)
    (t : table) (sr : list (Z * pyfloat)) (w : world) (s : st) :
  price_column t = Some sr -> (length (sdropna (map snd sr)) < 20)%nat ->
  calculate_portfolio_returns float_repr [(k, t)] None w s
  = (Err (value_error ("Insufficient aligned data: " ++ pretty (length (sdropna (map snd sr)))
                         ++ " observations")), s).
Proof.
  intros Hp Hlt.
  rewrite (equal_weights_pass float_repr [(k, t)]) by discriminate.
  unfold portfolio_of. unfold_M. rewrite (align_single k t sr w s Hp). cbv beta iota zeta.
  assert (Hl : tlen (dropna (frame_table (mk_frame (map fst sr) [(k, map snd sr)])))
               = length (sdropna (map snd sr))).
  { unfold tlen, dropna, frame_table. cbn [t_rows f_index f_cols map snd].
    rewrite (imap_columns (fun d o => (d, [default NaN o])) sr).
    apply dropna_single_column_length. }
  rewrite Hl. apply Nat.ltb_lt in Hlt. rewrite Hlt. reflexivity.
Qed.

Lemma portfolio_single_ticker_insufficient_witness :
  price_column (close_table 0 [inject_Z 5; inject_Z 6; inject_Z 7])
    = Some (series_at (close_table 0 [inject_Z 5; inject_Z 6; inject_Z 7]) 0) /\
  calculate_portfolio_returns (fun _ => "") [("AAA", close_table 0 [inject_Z 5; inject_Z 6; inject_Z 7])]%string
    None offline_world (mk_st [] [])
  = (Err (value_error ("Insufficient aligned data: " ++ pretty 3%nat ++ " observations")), mk_st [] []).
Proof.
  split; [reflexivity|].
  apply (portfolio_single_ticker_insufficient (fun _ => "") "AAA"
           (close_table 0 [inject_Z 5; inject_Z 6; inject_Z 7])
           (series_at (close_table 0 [inject_Z 5; inject_Z 6; inject_Z 7]) 0)).
  - reflexivity.
  - apply Nat.ltb_lt. vm_compute. reflexivity.
Defined.
